(** * The Doda Consulting executive dashboard ([ghl_dashboard_real.py])

    A shallow embedding of the Streamlit script: the metrics provider
    [load_real_ghl_data], the three page renderers and [main], together
    with the Python built-ins the renderers rely on (integer and float
    formatting, [max], insertion-ordered dictionaries).

    Python floats are IEEE-754 binary64 numbers and are modelled by Rocq's
    primitive floats, which are the same numbers; a decimal literal of the
    script is the same literal here.  Streamlit calls append elements to
    the page of the running session, NumPy's global generator is a state
    that the calls to [np.random.uniform] thread through.  The page
    configuration and the style sheet at the top of the script are
    presentation only and are left out; the HTML templates are kept by the
    texts they interpolate. *)

From Stdlib Require Import ZArith QArith Qabs List String Ascii Bool Lia.
From Stdlib Require Import DecimalString DecimalPos.
From Stdlib Require Import Uint63 PrimFloat FloatOps SpecFloat FloatAxioms.
Import ListNotations.

Set Warnings "-inexact-float".
Set Implicit Arguments.

Local Open Scope string_scope.
Local Open Scope Z_scope.

(** ** Python built-ins *)

Module Py.

(** Exceptions the script can raise. *)
Inductive exn : Type :=
| ValueError (msg : string)
| ZeroDivisionError (msg : string).

(** [str(n)] for an [int]. *)
Definition str (n : Z) : string := NilZero.string_of_int (Z.to_int n).

(** Insertion-ordered [dict]: the script only builds literals and reads
    [keys()] and [values()], both in insertion order. *)
Definition dict (K V : Type) : Type := list (K * V).

Definition keys {K V} (d : dict K V) : list K := map fst d.
Definition values {K V} (d : dict K V) : list V := map snd d.

(** [list(range(a, b))]. *)
Definition range (a b : Z) : list Z :=
  map (fun i => a + Z.of_nat i) (seq 0 (Z.to_nat (b - a))).

(** [max(xs)] over integers; an empty argument raises [ValueError]. *)
Definition max_int (xs : list Z) : exn + Z :=
  match xs with
  | [] => inl (ValueError "max() arg is an empty sequence")
  | x :: rest => inr (fold_left (fun m v => if m <? v then v else m) rest x)
  end.

(** [max(xs)] over floats: the running maximum is replaced only by an
    item that compares strictly greater. *)
Definition max_float (xs : list float) : exn + float :=
  match xs with
  | [] => inl (ValueError "max() arg is an empty sequence")
  | x :: rest =>
      inr (fold_left (fun m v => if PrimFloat.ltb m v then v else m) rest x)
  end.

(** *** Format specifications *)

Definition string_of_list (l : list ascii) : string :=
  fold_right String EmptyString l.

(** Digits given least significant first, a comma after every third one
    that is followed by a further digit. *)
Fixpoint group3 (ds : list ascii) : list ascii :=
  match ds with
  | a :: b :: c :: ((_ :: _) as more) => a :: b :: c :: ","%char :: group3 more
  | _ => ds
  end.

(** [format(n, ",")] for an [int]: sign, then the digits in groups of
    three. *)
Definition format_comma (n : Z) : string :=
  let digits := list_ascii_of_string (str (Z.abs n)) in
  let grouped := string_of_list (rev (group3 (rev digits))) in
  if n <? 0 then "-" ++ grouped else grouped.

(** Nearest integer to [num / den], ties to even ([den > 0]). *)
Definition round_half_even (num den : Z) : Z :=
  let q := num / den in
  let r := num mod den in
  match 2 * r ?= den with
  | Lt => q
  | Gt => q + 1
  | Eq => if Z.even q then q else q + 1
  end.

(** The exact value of a finite float [m * 2^e], scaled by [10^digits]
    and rounded to the nearest integer. *)
Definition scaled_mantissa (digits : nat) (m : positive) (e : Z) : Z :=
  let p := 10 ^ Z.of_nat digits in
  if 0 <=? e then Z.pos m * 2 ^ e * p
  else round_half_even (Z.pos m * p) (2 ^ (- e)).

(** [n] written with at least [width] digits. *)
Definition zero_pad (width : nat) (n : Z) : string :=
  let s := str n in
  string_of_list (repeat "0"%char (width - String.length s)) ++ s.

(** [format(x, ".<digits>f")]: correctly rounded fixed-point notation. *)
Definition format_f (digits : nat) (x : float) : string :=
  let sign (s : bool) := if s then "-" else "" in
  let body (n : Z) :=
    let p := 10 ^ Z.of_nat digits in
    match digits with
    | O => str n
    | _ => str (n / p) ++ "." ++ zero_pad digits (n mod p)
    end in
  match Prim2SF x with
  | S754_nan => "nan"
  | S754_infinity s => sign s ++ "inf"
  | S754_zero s => sign s ++ body 0
  | S754_finite s m e => sign s ++ body (scaled_mantissa digits m e)
  end.

(** [format(x, ".<digits>%")]: the value times one hundred in fixed-point
    notation, followed by a percent sign. *)
Definition format_pct (digits : nat) (x : float) : string :=
  format_f digits (x * 100)%float ++ "%".

(** [float(n)] for an [int] below [2^63] in absolute value; exact below
    [2^53]. *)
Definition float_of_int (n : Z) : float :=
  let a := of_uint63 (Uint63.of_Z (Z.abs n)) in
  if n <? 0 then (- a)%float else a.

(** [a / b] on two [int]s: the quotient correctly rounded, which for
    operands below [2^53] is the quotient of the two floats. *)
Definition truediv (a b : Z) : exn + float :=
  if b =? 0 then inl (ZeroDivisionError "division by zero")
  else inr (float_of_int a / float_of_int b)%float.

(** [round(x, ndigits)] for a float and [ndigits >= 0]: the decimal with
    [ndigits] places nearest to the exact value of [x], ties to even,
    converted back to the nearest float.  A float that is an integer is
    returned as it is; the conversion back is exact rounding as long as
    the scaled value stays below [2^53]. *)
Definition round (x : float) (ndigits : nat) : float :=
  match Prim2SF x with
  | S754_finite s m e =>
      if 0 <=? e then x
      else
        let n := scaled_mantissa ndigits m e in
        let q := (float_of_int n / float_of_int (10 ^ Z.of_nat ndigits))%float in
        if s then (- q)%float else q
  | _ => x
  end.

(** [x.as_integer_ratio()]: the exact value of a float as a fraction;
    nothing for [nan] and the infinities, where Python raises. *)
Definition as_integer_ratio (x : float) : option Q :=
  match Prim2SF x with
  | S754_zero _ => Some (inject_Z 0)
  | S754_finite s m e =>
      let n := if s then Z.neg m else Z.pos m in
      Some (if 0 <=? e then inject_Z (n * 2 ^ e)
            else Qmake n (Z.to_pos (2 ^ (- e))))
  | _ => None
  end.

(** [sub in s]. *)
Fixpoint contains (sub s : string) : bool :=
  String.prefix sub s ||
  match s with
  | EmptyString => false
  | String _ rest => contains sub rest
  end.

End Py.

(** ** The metrics snapshot

    The three dictionaries that [load_real_ghl_data] returns, one record
    per dictionary and per nested dictionary; the mappings whose keys are
    data ([segmentation], the distributions) stay dictionaries. *)

Record ContactsData : Type := {
  total_contacts : Z;
  contacts_with_email : Z;
  contacts_with_phone : Z;
  email_rate : float;
  phone_rate : float;
  avg_completeness : float;
  segmentation : Py.dict string float
}.

Record EventsData : Type := {
  total_events : Z;
  avg_duration : float;
  business_hours_rate : float;
  weekend_rate : float;
  status_distribution : Py.dict string float
}.

Record AttendanceByDay : Type := {
  mejor_dia : Z;
  mejor_tasa : float;
  peor_dia : Z;
  peor_tasa : float;
  inicio_mes : float;
  medio_mes : float;
  final_mes : float
}.

Record LeadTimeAnalysis : Type := {
  optimal_window : string;
  optimal_rate : float;
  same_day_rate : float;
  correlation : float
}.

Record BookingPatterns : Type := {
  peak_hour : Z;
  peak_day : string;
  peak_month : string;
  hour_distribution : Py.dict Z Z;
  monthly_distribution : Py.dict string Z
}.

Record BusinessAnswers : Type := {
  attendance_by_day : AttendanceByDay;
  lead_time_analysis : LeadTimeAnalysis;
  booking_patterns : BookingPatterns
}.

Definition Snapshot : Type := (ContactsData * EventsData * BusinessAnswers)%type.

(** [load_real_ghl_data]: the cached provider returns literal data. *)
Definition load_real_ghl_data : Snapshot :=
  let contacts_data := {|
    total_contacts := 9599;
    contacts_with_email := 1425;
    contacts_with_phone := 1477;
    email_rate := 0.148;
    phone_rate := 0.154;
    avg_completeness := 0.321;
    segmentation := [
      ("Establecido", 0.459%float);
      ("Reciente", 0.324%float);
      ("Nuevo", 0.123%float);
      ("Muy_Nuevo", 0.065%float);
      ("Antiguo", 0.029%float)
    ]
  |} in
  let events_data := {|
    total_events := 1034;
    avg_duration := 60.01;
    business_hours_rate := 0.777;
    weekend_rate := 0.067;
    status_distribution := [
      ("Confirmada", 0.769%float);
      ("Cancelada", 0.093%float);
      ("noshow", 0.083%float);
      ("showed", 0.055%float)
    ]
  |} in
  let business_answers := {|
    attendance_by_day := {|
      mejor_dia := 2;
      mejor_tasa := 0.667;
      peor_dia := 16;
      peor_tasa := 0.0;
      inicio_mes := 0.260;
      medio_mes := 0.215;
      final_mes := 0.193
    |};
    lead_time_analysis := {|
      optimal_window := "1-2_Semanas";
      optimal_rate := 0.101;
      same_day_rate := 0.033;
      correlation := 0.029
    |};
    booking_patterns := {|
      peak_hour := 16;
      peak_day := "Wednesday";
      peak_month := "July";
      hour_distribution := [(16, 78); (19, 78); (17, 74); (21, 68); (14, 65)];
      monthly_distribution := [("July", 172); ("August", 147); ("April", 135)]
    |}
  |} in
  (contacts_data, events_data, business_answers).

(** ** Plotly figures ([plotly.graph_objects]) *)

Module go.

(** A position on an axis: a number or a category label. *)
Inductive Coord : Type :=
| Num (n : Z)
| Cat (label : string).

Record Marker : Type := {
  size : Z;
  color : string;
  symbol : option string
}.

Record Line : Type := {
  line_color : string;
  width : Z
}.

(** [marker_color] of a bar trace: one colour per bar, or numbers mapped
    through a colour scale. *)
Inductive BarColor : Type :=
| Colors (cs : list string)
| Scaled (counts : list Z) (colorscale : string).

Inductive Trace : Type :=
| Scatter (x : list Coord) (y : list float) (fill : option string)
          (mode name : string) (line : option Line) (marker : Marker)
| Bar (x : list Coord) (y : list Z) (marker_color : BarColor) (name : string)
| Pie (labels : list string) (values : list float) (hole : float)
      (marker_colors : list string).

Record VRect : Type := {
  x0 : Z;
  x1 : Z;
  fillcolor : string;
  layer : string;
  line_width : Z
}.

Record Annotation : Type := {
  ann_x : Z;
  ann_y : float;
  text : string;
  showarrow : bool;
  arrowhead : Z
}.

Record Layout : Type := {
  title : option string;
  xaxis_title : option string;
  yaxis_title : option string;
  template : option string;
  height : option Z
}.

Record Figure : Type := {
  data : list Trace;
  shapes : list VRect;
  annotations : list Annotation;
  layout : Layout
}.

(** [go.Figure(data=...)]. *)
Definition Figure_ (traces : list Trace) : Figure :=
  {| data := traces; shapes := []; annotations := [];
     layout := {| title := None; xaxis_title := None; yaxis_title := None;
                  template := None; height := None |} |}.

Definition add_trace (t : Trace) (fig : Figure) : Figure :=
  {| data := data fig ++ [t]; shapes := shapes fig;
     annotations := annotations fig; layout := layout fig |}.

Definition add_vrect (r : VRect) (fig : Figure) : Figure :=
  {| data := data fig; shapes := shapes fig ++ [r];
     annotations := annotations fig; layout := layout fig |}.

Definition add_annotation (a : Annotation) (fig : Figure) : Figure :=
  {| data := data fig; shapes := shapes fig;
     annotations := annotations fig ++ [a]; layout := layout fig |}.

(** [fig.update_layout(...)]: the keywords given replace the fields. *)
Definition update_layout (l : Layout) (fig : Figure) : Figure :=
  let pick {A} (new old : option A) :=
    match new with Some _ => new | None => old end in
  {| data := data fig; shapes := shapes fig; annotations := annotations fig;
     layout := {| title := pick (title l) (title (layout fig));
                  xaxis_title := pick (xaxis_title l) (xaxis_title (layout fig));
                  yaxis_title := pick (yaxis_title l) (yaxis_title (layout fig));
                  template := pick (template l) (template (layout fig));
                  height := pick (height l) (height (layout fig)) |} |}.

End go.

(** ** Streamlit

    A run of the script appends elements to the page of the session; the
    session also holds the state of NumPy's global generator, which
    outlives a run.  A call either returns or raises, and what was put on
    the page before an exception stays there. *)

Module st.

Inductive Container : Type :=
| Body
| Sidebar
| Column (k : nat).

(** The three HTML templates the script passes to [st.markdown] with
    [unsafe_allow_html=True], by the texts they interpolate. *)
Inductive Html : Type :=
| MainHeader (h1 h3 p : string)
| BusinessQuestion (h3 h4 : string)
| InsightCard (title value description recommendation : string).

Inductive Element : Type :=
| Title (body : string)
| Markdown (body : string)
| MarkdownHtml (block : Html)
| Columns (n : nat)
| Metric (label value : string)
| Selectbox (label : string) (options : list string)
| PlotlyChart (fig : go.Figure) (use_container_width : bool).

Record Session (R : Type) : Type := {
  np_random : R;
  current : Container;
  page : list (Container * Element)
}.

Definition St (R A : Type) : Type := Session R -> (Py.exn + A) * Session R.

Section Monad.
Context {R : Type}.

Definition ret {A} (a : A) : St R A := fun w => (inr a, w).

Definition bind {A B} (m : St R A) (k : A -> St R B) : St R B :=
  fun w =>
    match m w with
    | (inr a, w') => k a w'
    | (inl e, w') => (inl e, w')
    end.

(** The result of a built-in that may raise. *)
Definition lift {A} (r : Py.exn + A) : St R A := fun w => (r, w).

Definition emit (e : Element) : St R unit :=
  fun w => (inr tt, {| np_random := np_random w; current := current w;
                       page := page w ++ [(current w, e)] |}).

(** [with c: body]: elements go to container [c]; the enclosing
    container is current again afterwards, also after an exception. *)
Definition within {A} (c : Container) (body : St R A) : St R A :=
  fun w =>
    let (r, w') := body {| np_random := np_random w; current := c;
                           page := page w |} in
    (r, {| np_random := np_random w'; current := current w;
           page := page w' |}).

Definition title (body : string) : St R unit := emit (Title body).
Definition markdown (body : string) : St R unit := emit (Markdown body).
Definition markdown_html (block : Html) : St R unit :=
  emit (MarkdownHtml block).
Definition columns (n : nat) : St R unit := emit (Columns n).
Definition metric (label value : string) : St R unit :=
  emit (Metric label value).
Definition plotly_chart (fig : go.Figure) (use_container_width : bool)
  : St R unit :=
  emit (PlotlyChart fig use_container_width).

(** [for x in xs: body], threading what the body accumulates. *)
Fixpoint for_ {A S} (xs : list A) (body : A -> S -> St R S) (acc : S)
  : St R S :=
  match xs with
  | [] => ret acc
  | x :: rest => bind (body x acc) (for_ rest body)
  end.

(** A session whose page is still empty. *)
Definition fresh (r : R) : Session R :=
  {| np_random := r; current := Body; page := [] |}.

End Monad.

(** [st.sidebar]: the same calls, placed in the sidebar. *)
Module sidebar.

Definition title {R} (body : string) : St R unit :=
  within Sidebar (emit (Title body)).

(** [st.sidebar.selectbox] returns the option at the position the user
    has selected, the first option when there is none at that
    position. *)
Definition selectbox {R} (label : string) (options : list string)
           (selected : nat) : St R string :=
  bind (within Sidebar (emit (Selectbox label options)))
       (fun _ => ret (nth selected options (hd "" options))).

End sidebar.

End st.

Notation "x <- m ;; k" := (st.bind m (fun x => k))
  (at level 61, m at next level, right associativity).
Notation "m ;; k" := (st.bind m (fun _ => k))
  (at level 61, right associativity).

(** ** NumPy's random generator

    [np.random.uniform] belongs to NumPy, not to the script; the generator
    is an interface that any state type with a draw operation implements. *)

Class RandomSource (R : Type) : Type := {
  draw_uniform : float -> float -> R -> float * R
}.

Module np.
Module random.

(** [np.random.uniform(low, high)]: draws from the global generator
    and advances it. *)
Definition uniform {R} `{RandomSource R} (low high : float)
  : st.St R float :=
  fun w =>
    let (v, r') := draw_uniform low high (st.np_random w) in
    (inr v, {| st.np_random := r'; st.current := st.current w;
               st.page := st.page w |}).

End random.
End np.

(** ** The dashboard *)

Section Dashboard.

Context {R : Type} `{RandomSource R}.

Record Insight : Type := {
  title : string;
  value : string;
  description : string;
  recommendation : string
}.

(** The list [insights] of [show_executive_summary]; [peak_count] is the
    value of [max(...)] over the hour distribution, the only expression
    of the list that can raise. *)
Definition insights (business_answers : BusinessAnswers) (peak_count : Z)
  : list Insight := [
    {| title := "Momento Óptimo del Mes";
       value := "Día " ++ Py.str (mejor_dia (attendance_by_day business_answers));
       description :=
         Py.format_pct 1 (mejor_tasa (attendance_by_day business_answers))
         ++ " asistencia vs "
         ++ Py.format_pct 1 (peor_tasa (attendance_by_day business_answers))
         ++ " en día " ++ Py.str (peor_dia (attendance_by_day business_answers));
       recommendation := "Concentrar campañas en primera quincena del mes" |};
    {| title := "Ventana de Reserva Ideal";
       value := optimal_window (lead_time_analysis business_answers);
       description :=
         Py.format_pct 1 (optimal_rate (lead_time_analysis business_answers))
         ++ " asistencia vs "
         ++ Py.format_pct 1 (same_day_rate (lead_time_analysis business_answers))
         ++ " mismo día";
       recommendation := "Implementar recordatorios automáticos con 1-2 semanas" |};
    {| title := "Patrón de Reservas Óptimo";
       value := peak_day (booking_patterns business_answers) ++ " "
                ++ Py.str (peak_hour (booking_patterns business_answers)) ++ ":00";
       description := "Hora pico con " ++ Py.str peak_count ++ " reservas";
       recommendation := "Aumentar disponibilidad miércoles 16:00-17:00" |}
  ].

(** [show_executive_summary]: the four cards, then the insight blocks.
    The list of insights is built, and [max] may raise, after the cards
    and the two headings are on the page. *)
Definition show_executive_summary (contacts_data : ContactsData)
           (events_data : EventsData) (business_answers : BusinessAnswers)
  : st.St R unit :=
  st.title "📊 Resumen Ejecutivo" ;;
  st.columns 4 ;;
  st.within (st.Column 1)
    (st.metric "📞 Total Contactos"
       (Py.format_comma (total_contacts contacts_data))) ;;
  st.within (st.Column 2)
    (st.metric "📅 Total Eventos"
       (Py.format_comma (total_events events_data))) ;;
  st.within (st.Column 3)
    (st.metric "⏰ Ventana Óptima"
       (optimal_window (lead_time_analysis business_answers))) ;;
  st.within (st.Column 4)
    (st.metric "🎯 Hora Pico"
       (Py.str (peak_hour (booking_patterns business_answers)) ++ ":00")) ;;
  st.markdown "---" ;;
  st.markdown "## 💡 Insights Clave Identificados" ;;
  peak_count <- st.lift
    (Py.max_int (Py.values (hour_distribution (booking_patterns business_answers)))) ;;
  st.for_ (insights business_answers peak_count)
    (fun insight _ =>
       st.markdown_html
         (st.InsightCard (title insight) (value insight)
            (description insight) (recommendation insight)))
    tt.

(** The loop of [show_business_questions] that fills [attendance_rates]. *)
Definition attendance_rate (day : Z) : st.St R float :=
  if day =? 2 then st.ret 66.7%float
  else if day =? 16 then st.ret 0.0%float
  else if day <=? 10 then np.random.uniform 20 35
  else if day <=? 20 then np.random.uniform 15 25
  else np.random.uniform 10 20.

Definition fill_attendance_rates (days : list Z) : st.St R (list float) :=
  st.for_ days
    (fun day attendance_rates =>
       rate <- attendance_rate day ;;
       st.ret (attendance_rates ++ [rate])%list)
    [].

(** Chart A, the figure [fig1]. *)
Definition attendance_figure (days : list Z) (attendance_rates : list float)
           (top : float) : go.Figure :=
  let fig1 := go.Figure_ [] in
  let fig1 :=
    go.add_trace
      (go.Scatter (map go.Num days) attendance_rates (Some "tonexty")
         "lines+markers" "% Asistencia"
         (Some {| go.line_color := "#3B82F6"; go.width := 3 |})
         {| go.size := 6; go.color := "#3B82F6"; go.symbol := None |})
      fig1 in
  let fig1 :=
    go.add_vrect
      {| go.x0 := 1; go.x1 := 10; go.fillcolor := "rgba(16, 185, 129, 0.1)";
         go.layer := "below"; go.line_width := 0 |}
      fig1 in
  let fig1 :=
    go.add_annotation
      {| go.ann_x := 5; go.ann_y := (top * 1.1)%float;
         go.text := "Zona Óptima<br>Inicio de Mes";
         go.showarrow := true; go.arrowhead := 2 |}
      fig1 in
  go.update_layout
    {| go.title := Some "Asistencia por Día del Mes - Análisis Real";
       go.xaxis_title := Some "Día del Mes";
       go.yaxis_title := Some "% Asistencia";
       go.template := Some "plotly_white";
       go.height := Some 400 |}
    fig1.

(** Chart B, the figure [fig2]. *)
Definition lead_times : list string :=
  ["Mismo_Día"; "1-3_Días"; "4-7_Días"; "1-2_Semanas"; "2-4_Semanas"; "Más_1_Mes"].

Definition attendance_by_leadtime : list float :=
  [3.3; 4.7; 5.5; 10.1; 8.6; 0.0]%float.

Definition lead_time_figure : go.Figure :=
  let fig2 := go.Figure_ [] in
  let fig2 :=
    go.add_trace
      (go.Scatter (map go.Cat lead_times) attendance_by_leadtime None
         "lines+markers" "% Asistencia"
         (Some {| go.line_color := "#EF4444"; go.width := 4 |})
         {| go.size := 12; go.color := "#EF4444"; go.symbol := None |})
      fig2 in
  let fig2 :=
    go.add_trace
      (go.Scatter [go.Cat "1-2_Semanas"] [10.1%float] None
         "markers" "Punto Óptimo" None
         {| go.size := 20; go.color := "#10B981"; go.symbol := Some "star" |})
      fig2 in
  go.update_layout
    {| go.title := Some "Correlación Días de Anticipación vs Asistencia - Datos Reales";
       go.xaxis_title := Some "Ventana de Anticipación";
       go.yaxis_title := Some "% Asistencia";
       go.template := Some "plotly_white";
       go.height := Some 400 |}
    fig2.

(** Charts C and D, the figures [fig3] and [fig4]. *)
Definition hour_figure (business_answers : BusinessAnswers) : go.Figure :=
  let hours := Py.keys (hour_distribution (booking_patterns business_answers)) in
  let counts := Py.values (hour_distribution (booking_patterns business_answers)) in
  let fig3 := go.Figure_ [] in
  let colors :=
    map (fun count => if 70 <=? count then "#F59E0B" else "#6B7280") counts in
  let fig3 :=
    go.add_trace (go.Bar (map go.Num hours) counts (go.Colors colors) "Reservas")
      fig3 in
  go.update_layout
    {| go.title := Some "Reservas por Hora - Datos Reales";
       go.xaxis_title := None; go.yaxis_title := None; go.template := None;
       go.height := Some 350 |}
    fig3.

Definition month_figure (business_answers : BusinessAnswers) : go.Figure :=
  let months := Py.keys (monthly_distribution (booking_patterns business_answers)) in
  let month_counts :=
    Py.values (monthly_distribution (booking_patterns business_answers)) in
  let fig4 := go.Figure_ [] in
  let fig4 :=
    go.add_trace
      (go.Bar (map go.Cat months) month_counts
         (go.Scaled month_counts "RdYlGn") "Reservas")
      fig4 in
  go.update_layout
    {| go.title := Some "Reservas por Mes - Datos Reales";
       go.xaxis_title := None; go.yaxis_title := None; go.template := None;
       go.height := Some 350 |}
    fig4.

(** [show_business_questions]. *)
Definition show_business_questions (business_answers : BusinessAnswers)
  : st.St R unit :=
  st.title "❓ Respuestas a Preguntas Críticas de Negocio" ;;
  st.markdown_html
    (st.BusinessQuestion
       "📅 PREGUNTA 1: ¿Cuál es la asistencia por momento del mes?"
       "✅ RESPUESTA: Día 2 del mes = 66.7% asistencia vs 0% en día 16") ;;
  let days := Py.range 1 32 in
  attendance_rates <- fill_attendance_rates days ;;
  top <- st.lift (Py.max_float attendance_rates) ;;
  st.plotly_chart (attendance_figure days attendance_rates top) true ;;
  st.markdown "---" ;;
  st.markdown_html
    (st.BusinessQuestion
       "⏰ PREGUNTA 2: ¿Correlación tiempo agenda-cita vs asistencia?"
       "✅ RESPUESTA: 1-2 semanas = 10.1% vs 3.3% mismo día (correlación +0.029)") ;;
  st.plotly_chart lead_time_figure true ;;
  st.markdown "---" ;;
  st.markdown_html
    (st.BusinessQuestion
       "📞 PREGUNTA 3: ¿Patrones de reservas por horario, día y mes?"
       "✅ RESPUESTA: Wednesday 16:00 = 78 reservas | July = 172 reservas (mes pico)") ;;
  st.columns 2 ;;
  st.within (st.Column 1)
    (st.plotly_chart (hour_figure business_answers) true) ;;
  st.within (st.Column 2)
    (st.plotly_chart (month_figure business_answers) true).

(** [show_segmentation_metrics]. *)
Definition segmentation_figure (contacts_data : ContactsData) : go.Figure :=
  let segments := Py.keys (segmentation contacts_data) in
  let percentages :=
    map (fun v => (v * 100)%float) (Py.values (segmentation contacts_data)) in
  let fig_seg :=
    go.Figure_
      [go.Pie segments percentages 0.4
         ["#10B981"; "#3B82F6"; "#F59E0B"; "#EF4444"; "#6B7280"]] in
  go.update_layout
    {| go.title := Some "Distribución de Contactos por Antigüedad";
       go.xaxis_title := None; go.yaxis_title := None; go.template := None;
       go.height := Some 400 |}
    fig_seg.

Definition show_segmentation_metrics (contacts_data : ContactsData)
           (events_data : EventsData) : st.St R unit :=
  st.title "👥 Segmentación de Contactos & Métricas del Sistema" ;;
  st.columns 2 ;;
  st.within (st.Column 1)
    (st.markdown "### 📊 Segmentación por Antigüedad" ;;
     st.plotly_chart (segmentation_figure contacts_data) true) ;;
  st.within (st.Column 2)
    (st.markdown "### 🎯 Métricas de Contactabilidad" ;;
     st.metric "📧 Tasa de Email" (Py.format_pct 1 (email_rate contacts_data)) ;;
     st.metric "📱 Tasa de Teléfono" (Py.format_pct 1 (phone_rate contacts_data)) ;;
     st.metric "📊 Completitud Promedio"
       (Py.format_pct 1 (avg_completeness contacts_data)) ;;
     st.markdown "### ⏱️ Métricas de Eventos" ;;
     st.metric "⏰ Duración Promedio"
       (Py.format_f 0 (avg_duration events_data) ++ " min") ;;
     st.metric "🏢 Horario Comercial"
       (Py.format_pct 1 (business_hours_rate events_data)) ;;
     st.metric "📅 Fin de Semana" (Py.format_pct 1 (weekend_rate events_data))).

(** The three pages of the navigation. *)
Definition pages : list string :=
  ["📊 Resumen Ejecutivo"; "❓ Preguntas de Negocio"; "👥 Segmentación & Métricas"].

(** The dispatch at the end of [main], for any snapshot. *)
Definition show_page (page : string) (snapshot : Snapshot) : st.St R unit :=
  let '(contacts_data, events_data, business_answers) := snapshot in
  if String.eqb page "📊 Resumen Ejecutivo" then
    show_executive_summary contacts_data events_data business_answers
  else if String.eqb page "❓ Preguntas de Negocio" then
    show_business_questions business_answers
  else if String.eqb page "👥 Segmentación & Métricas" then
    show_segmentation_metrics contacts_data events_data
  else st.ret tt.

(** [main]; [selected] is the position the user has chosen in the
    sidebar. *)
Definition main (selected : nat) : st.St R unit :=
  st.markdown_html
    (st.MainHeader "🚀 Dashboard Ejecutivo - Doda Consulting"
       "Pipeline MLOps - Go High Level Business Intelligence"
       "📊 Datos: 9,599 contactos | 1,034 eventos | Sistema: ⚡ ACTIVO") ;;
  let snapshot := load_real_ghl_data in
  st.sidebar.title "🎛️ Navegación" ;;
  page <- st.sidebar.selectbox "📄 Seleccionar Sección" pages selected ;;
  show_page page snapshot.

(** The script run as a program: [main], then the footer. *)
Definition script (selected : nat) : st.St R unit :=
  main selected ;;
  st.markdown "---" ;;
  st.markdown "**Dashboard generado por Pipeline MLOps** | Doda Consulting | Datos actualizados automáticamente".

(** One run of a renderer on an empty page, from generator state [r]:
    what was rendered, how the run ended, and the generator afterwards. *)
Definition render (m : st.St R unit) (r : R)
  : list (st.Container * st.Element) * (Py.exn + unit) * R :=
  let (res, w) := m (st.fresh r) in
  (st.page w, res, st.np_random w).

Definition rendered (m : st.St R unit) (r : R)
  : list (st.Container * st.Element) :=
  fst (fst (render m r)).

End Dashboard.

(** ** Reading a rendered page *)

Definition Page : Type := list (st.Container * st.Element).

(** The value shown by the metric card of column [k]. *)
Fixpoint card (k : nat) (p : Page) : option string :=
  match p with
  | [] => None
  | (st.Column j, st.Metric _ v) :: rest =>
      if Nat.eqb j k then Some v else card k rest
  | _ :: rest => card k rest
  end.

(** The insight blocks of a page, in order. *)
Fixpoint insight_blocks (p : Page) : list Insight :=
  match p with
  | [] => []
  | (_, st.MarkdownHtml (st.InsightCard t v d r)) :: rest =>
      {| title := t; value := v; description := d; recommendation := r |}
      :: insight_blocks rest
  | _ :: rest => insight_blocks rest
  end.

(** The second insight block of a page, the one on the lead time. *)
Definition lead_time_insight (p : Page) : option Insight :=
  nth_error (insight_blocks p) 1.

(** The charts of a page, in order. *)
Fixpoint charts (p : Page) : list go.Figure :=
  match p with
  | [] => []
  | (_, st.PlotlyChart fig _) :: rest => fig :: charts rest
  | _ :: rest => charts rest
  end.

(** A page without its first chart. *)
Fixpoint without_first_chart (p : Page) : Page :=
  match p with
  | [] => []
  | (_, st.PlotlyChart _ _) :: rest => rest
  | e :: rest => e :: without_first_chart rest
  end.

(** The series of Chart A, the first chart of the page: its days and its
    rates. *)
Definition chart_A_series (p : Page) : option (list go.Coord * list float) :=
  match charts p with
  | fig :: _ =>
      match go.data fig with
      | go.Scatter x y _ _ _ _ _ :: _ => Some (x, y)
      | _ => None
      end
  | [] => None
  end.

(** The two days whose rate is fixed. *)
Definition is_fixed_day (x : go.Coord) : bool :=
  match x with
  | go.Num day => (day =? 2) || (day =? 16)
  | go.Cat _ => false
  end.

(** The filler values of Chart A: the rates of the days that are not
    fixed. *)
Definition filler_values (p : Page) : list float :=
  match chart_A_series p with
  | Some (x, y) =>
      map snd (filter (fun xy => negb (is_fixed_day (fst xy))) (combine x y))
  | None => []
  end.

(** ** Properties that the statements speak of *)

(** The keys of a distribution whose count is the largest one. *)
Definition peak_keys (d : Py.dict Z Z) : list Z :=
  match Py.max_int (Py.values d) with
  | inl _ => []
  | inr top => Py.keys (filter (fun kv => snd kv =? top) d)
  end.

(** The reading of the peak-hour card that derives it from the
    distribution: the card shows one of the keys with the largest count. *)
Definition card_shows_peak_key (b : BusinessAnswers) (p : Page) : Prop :=
  exists k,
    In k (peak_keys (hour_distribution (booking_patterns b)))
    /\ card 4 p = Some (Py.str k ++ ":00").

Definition is_digit (c : ascii) : bool :=
  (48 <=? nat_of_ascii c)%nat && (nat_of_ascii c <=? 57)%nat.

(** Two decimal digits followed by ":00". *)
Definition is_HH_00 (s : string) : bool :=
  match s with
  | String a (String b rest) => is_digit a && is_digit b && String.eqb rest ":00"
  | _ => false
  end.

(** A single decimal digit followed by ":00". *)
Definition is_H_00 (s : string) : bool :=
  match s with
  | String a rest => is_digit a && String.eqb rest ":00"
  | _ => false
  end.

(** Whether the character [c] occurs in [s]. *)
Fixpoint has_char (c : ascii) (s : string) : bool :=
  match s with
  | EmptyString => false
  | String a rest => Ascii.eqb c a || has_char c rest
  end.

(** Whether [v] lies in [[low, high]]. *)
Definition within_range (low high v : float) : bool :=
  PrimFloat.leb low v && PrimFloat.leb v high.

(** Whether a list of labels is in ascending order of its strings. *)
Fixpoint alphabetical (labels : list string) : bool :=
  match labels with
  | a :: ((b :: _) as rest) => String.leb a b && alphabetical rest
  | _ => true
  end.

(** The floats of a list added from left to right. *)
Definition float_sum (xs : list float) : float :=
  fold_left PrimFloat.add xs 0%float.

(** The sum of the exact values of a list of floats. *)
Definition exact_sum (xs : list float) : option Q :=
  fold_left
    (fun acc x =>
       match acc, Py.as_integer_ratio x with
       | Some a, Some q => Some (Qred (Qplus a q))
       | _, _ => None
       end)
    xs (Some (inject_Z 0)).

(** [|total - whole| <= tolerance] on exact values. *)
Definition within_tolerance (total : option Q) (whole tolerance : Q) : bool :=
  match total with
  | Some t => Qle_bool (Qabs (Qminus t whole)) tolerance
  | None => false
  end.

(** ** The pages in closed form *)

Section ClosedForms.

Context {R : Type} `{RandomSource R}.

(** What the summary page shows before the insights are computed. *)
Definition summary_cards (contacts_data : ContactsData)
           (events_data : EventsData) (business_answers : BusinessAnswers)
  : Page := [
  (st.Body, st.Title "📊 Resumen Ejecutivo");
  (st.Body, st.Columns 4);
  (st.Column 1,
   st.Metric "📞 Total Contactos" (Py.format_comma (total_contacts contacts_data)));
  (st.Column 2,
   st.Metric "📅 Total Eventos" (Py.format_comma (total_events events_data)));
  (st.Column 3,
   st.Metric "⏰ Ventana Óptima" (optimal_window (lead_time_analysis business_answers)));
  (st.Column 4,
   st.Metric "🎯 Hora Pico"
     (Py.str (peak_hour (booking_patterns business_answers)) ++ ":00"));
  (st.Body, st.Markdown "---");
  (st.Body, st.Markdown "## 💡 Insights Clave Identificados")
].

Definition insight_element (i : Insight) : st.Container * st.Element :=
  (st.Body,
   st.MarkdownHtml
     (st.InsightCard (title i) (value i) (description i) (recommendation i))).

(** The business-questions page for given rates of Chart A and a given
    height of its annotation. *)
Definition questions_page (business_answers : BusinessAnswers)
           (attendance_rates : list float) (top : float) : Page := [
  (st.Body, st.Title "❓ Respuestas a Preguntas Críticas de Negocio");
  (st.Body,
   st.MarkdownHtml
     (st.BusinessQuestion
        "📅 PREGUNTA 1: ¿Cuál es la asistencia por momento del mes?"
        "✅ RESPUESTA: Día 2 del mes = 66.7% asistencia vs 0% en día 16"));
  (st.Body,
   st.PlotlyChart (attendance_figure (Py.range 1 32) attendance_rates top) true);
  (st.Body, st.Markdown "---");
  (st.Body,
   st.MarkdownHtml
     (st.BusinessQuestion
        "⏰ PREGUNTA 2: ¿Correlación tiempo agenda-cita vs asistencia?"
        "✅ RESPUESTA: 1-2 semanas = 10.1% vs 3.3% mismo día (correlación +0.029)"));
  (st.Body, st.PlotlyChart lead_time_figure true);
  (st.Body, st.Markdown "---");
  (st.Body,
   st.MarkdownHtml
     (st.BusinessQuestion
        "📞 PREGUNTA 3: ¿Patrones de reservas por horario, día y mes?"
        "✅ RESPUESTA: Wednesday 16:00 = 78 reservas | July = 172 reservas (mes pico)"));
  (st.Body, st.Columns 2);
  (st.Column 1, st.PlotlyChart (hour_figure business_answers) true);
  (st.Column 2, st.PlotlyChart (month_figure business_answers) true)
].

(** The segmentation page. *)
Definition segmentation_page (c : ContactsData) (e : EventsData) : Page := [
  (st.Body, st.Title "👥 Segmentación de Contactos & Métricas del Sistema");
  (st.Body, st.Columns 2);
  (st.Column 1, st.Markdown "### 📊 Segmentación por Antigüedad");
  (st.Column 1, st.PlotlyChart (segmentation_figure c) true);
  (st.Column 2, st.Markdown "### 🎯 Métricas de Contactabilidad");
  (st.Column 2, st.Metric "📧 Tasa de Email" (Py.format_pct 1 (email_rate c)));
  (st.Column 2, st.Metric "📱 Tasa de Teléfono" (Py.format_pct 1 (phone_rate c)));
  (st.Column 2,
   st.Metric "📊 Completitud Promedio" (Py.format_pct 1 (avg_completeness c)));
  (st.Column 2, st.Markdown "### ⏱️ Métricas de Eventos");
  (st.Column 2,
   st.Metric "⏰ Duración Promedio" (Py.format_f 0 (avg_duration e) ++ " min"));
  (st.Column 2,
   st.Metric "🏢 Horario Comercial" (Py.format_pct 1 (business_hours_rate e)));
  (st.Column 2, st.Metric "📅 Fin de Semana" (Py.format_pct 1 (weekend_rate e)))
].

(** The largest rate of a series, [0] for an empty one. *)
Definition top_rate (attendance_rates : list float) : float :=
  match Py.max_float attendance_rates with
  | inr top => top
  | inl _ => 0%float
  end.

Definition set_np_random (r : R) (w : st.Session R) : st.Session R :=
  {| st.np_random := r; st.current := st.current w; st.page := st.page w |}.

(** One pass of the loop over the days as a function of the generator,
    and the whole loop. *)
Definition rate_of (day : Z) (r : R) : float * R :=
  if day =? 2 then (66.7%float, r)
  else if day =? 16 then (0.0%float, r)
  else if day <=? 10 then draw_uniform 20 35 r
  else if day <=? 20 then draw_uniform 15 25 r
  else draw_uniform 10 20 r.

Fixpoint series (days : list Z) (r : R) : list float * R :=
  match days with
  | [] => ([], r)
  | day :: rest =>
      let (v, r1) := rate_of day r in
      let (vs, r2) := series rest r1 in
      (v :: vs, r2)
  end.

(** The generator keeps the bounds it is given, NumPy's contract for
    [uniform], at the call with bounds [low] and [high]. *)
Definition honours (low high : float) : Prop :=
  forall r : R, within_range low high (fst (draw_uniform low high r)) = true.

(** [v] is a draw of the generator between [low] and [high]. *)
Definition drawn (low high v : float) : Prop :=
  exists r : R, v = fst (draw_uniform low high r).

(** Where the rate of one day comes from. *)
Definition rate_source (day : Z) (v : float) : Prop :=
  if day =? 2 then v = 66.7%float
  else if day =? 16 then v = 0.0%float
  else if day <=? 10 then drawn 20 35 v
  else if day <=? 20 then drawn 15 25 v
  else drawn 10 20 v.

(** What the loop promises for the rate of one day. *)
Definition rate_ok (day : Z) (v : float) : Prop :=
  if day =? 2 then v = 66.7%float
  else if day =? 16 then v = 0.0%float
  else if day <=? 10 then within_range 20 35 v = true
  else if day <=? 20 then within_range 15 25 v = true
  else within_range 10 20 v = true.

End ClosedForms.

(** ** Generators and snapshots to run the dashboard on *)

(** A generator of period four: the unit sample runs through
    [0, 1/4, 1/2, 3/4], and a draw is [low + (high - low) * sample], the
    way NumPy scales its unit samples. *)
Definition unit_sample (s : Z) : float :=
  match s mod 4 with
  | 0 => 0
  | 1 => 0.25
  | 2 => 0.5
  | _ => 0.75
  end%float.

#[export] Instance cyclic_source : RandomSource Z := {|
  draw_uniform := fun low high s =>
    ((low + (high - low) * unit_sample s)%float, s + 1)
|}.

Definition provider_contacts : ContactsData := fst (fst load_real_ghl_data).
Definition provider_events : EventsData := snd (fst load_real_ghl_data).
Definition provider_answers : BusinessAnswers := snd load_real_ghl_data.

(** The provider's answers with other booking patterns. *)
Definition with_booking_patterns (patterns : BookingPatterns) : BusinessAnswers :=
  {| attendance_by_day := attendance_by_day provider_answers;
     lead_time_analysis := lead_time_analysis provider_answers;
     booking_patterns := patterns |}.

(** Bookings that peak at nine in the morning. *)
Definition morning_answers : BusinessAnswers :=
  with_booking_patterns
    {| peak_hour := 9; peak_day := "Monday"; peak_month := "July";
       hour_distribution := [(9, 81); (16, 78); (10, 40)];
       monthly_distribution := [("July", 172)] |}.

(** A [peak_hour] field that disagrees with the distribution next to it. *)
Definition stale_answers : BusinessAnswers :=
  with_booking_patterns
    {| peak_hour := 9; peak_day := "Wednesday"; peak_month := "July";
       hour_distribution := hour_distribution (booking_patterns provider_answers);
       monthly_distribution := monthly_distribution (booking_patterns provider_answers) |}.

(** The provider's answers with no bookings recorded per hour. *)
Definition no_hours_answers : BusinessAnswers :=
  with_booking_patterns
    {| peak_hour := 16; peak_day := "Wednesday"; peak_month := "July";
       hour_distribution := [];
       monthly_distribution := monthly_distribution (booking_patterns provider_answers) |}.

(** ** Further notions for the properties of the pages *)

Definition is_comma (c : ascii) : bool := Ascii.eqb c ","%char.

(** A string without its commas. *)
Definition remove_commas (s : string) : string :=
  Py.string_of_list (filter (fun c => negb (is_comma c)) (list_ascii_of_string s)).

(** Digits in groups, read from the last character: every group has three
    digits and is followed by a comma, except the leading group, which
    has one to three digits. *)
Fixpoint grouped_from_end (l : list ascii) : bool :=
  match l with
  | a :: b :: c :: sep :: ((_ :: _) as more) =>
      is_digit a && is_digit b && is_digit c && is_comma sep
      && grouped_from_end more
  | [a; b; c] => is_digit a && is_digit b && is_digit c
  | [a; b] => is_digit a && is_digit b
  | [a] => is_digit a
  | _ => false
  end.

Definition thousands_grouped (s : string) : bool :=
  grouped_from_end (rev (list_ascii_of_string s)).

(** Successive draws from the generator, one per pair of bounds. *)
Fixpoint draw_all {R : Type} `{RandomSource R}
         (calls : list (float * float)) (r : R) : list float * R :=
  match calls with
  | [] => ([], r)
  | (low, high) :: rest =>
      let (v, r1) := draw_uniform low high r in
      let (vs, r2) := draw_all rest r1 in
      (v :: vs, r2)
  end.

(** The bounds of the draws that one rendering of Chart A makes, in order:
    nine for the first ten days, nine for the next ten, eleven for the
    rest. *)
Definition filler_calls : list (float * float) :=
  (repeat (20, 35) 9 ++ repeat (15, 25) 9 ++ repeat (10, 20) 11)%float%list.

(** The bounds of the draws for a list of days. *)
Definition calls_of (days : list Z) : list (float * float) :=
  flat_map
    (fun day =>
       if (day =? 2) || (day =? 16) then []
       else if day <=? 10 then [(20, 35)%float]
       else if day <=? 20 then [(15, 25)%float]
       else [(10, 20)%float])
    days.

(** A computation that only appends to the page: its result, the generator
    afterwards and the elements it adds depend on the generator and the
    current container alone, whatever is on the page already, and the
    current container is the same afterwards. *)
Definition appends_only {R A : Type} (m : st.St R A) : Prop :=
  forall (r : R) (c : st.Container),
  exists (res : Py.exn + A) (r' : R) (els : Page),
  forall p : Page,
    m {| st.np_random := r; st.current := c; st.page := p |}
    = (res, {| st.np_random := r'; st.current := c; st.page := (p ++ els)%list |}).

(** The header and the navigation that [main] puts before the page. *)
Definition navigation : Page := [
  (st.Body,
   st.MarkdownHtml
     (st.MainHeader "🚀 Dashboard Ejecutivo - Doda Consulting"
        "Pipeline MLOps - Go High Level Business Intelligence"
        "📊 Datos: 9,599 contactos | 1,034 eventos | Sistema: ⚡ ACTIVO"));
  (st.Sidebar, st.Title "🎛️ Navegación");
  (st.Sidebar,
   st.Selectbox "📄 Seleccionar Sección"
     ["📊 Resumen Ejecutivo"; "❓ Preguntas de Negocio"; "👥 Segmentación & Métricas"])
].

(** The two elements of the footer. *)
Definition footer : Page := [
  (st.Body, st.Markdown "---");
  (st.Body,
   st.Markdown "**Dashboard generado por Pipeline MLOps** | Doda Consulting | Datos actualizados automáticamente")
].

(** The page label at a position of the selector. *)
Definition selected_page (selected : nat) : string :=
  nth selected pages (hd "" pages).

(** * Properties *)

(** ** Lists and ranges *)

(** Every integer of [[a, b)] occurs in [range(a, b)]. *)
Lemma in_range (a b n : Z) : a <= n < b -> In n (Py.range a b).
Proof.
  intros Hn. unfold Py.range.
  apply in_map_iff. exists (Z.to_nat (n - a)). split; [lia |].
  apply in_seq. lia.
Qed.

(** A property checked on [range(a, b)] holds of every integer of
    [[a, b)]. *)
Lemma forall_range (P : Z -> bool) (a b : Z) :
  forallb P (Py.range a b) = true -> forall n, a <= n < b -> P n = true.
Proof.
  intros Hall n Hn. rewrite forallb_forall in Hall. now apply Hall, in_range.
Qed.

Lemma Forall2_nth_error {A B : Type} (P : A -> B -> Prop) (l : list A) :
  forall (l' : list B) (i : nat) (a : A),
    Forall2 P l l' ->
    nth_error l i = Some a ->
    exists b, nth_error l' i = Some b /\ P a b.
Proof.
  induction l as [| x l IH]; intros l' i a Hall Hnth.
  - destruct i; discriminate Hnth.
  - inversion Hall as [| ? y ? l2 Hxy Hrest]; subst.
    destruct i as [| i]; cbn in *.
    + injection Hnth as <-. now exists y.
    + now apply IH.
Qed.

(** ** The summary page *)

Section Summary.

Context {R : Type} `{RandomSource R}.

Variables (contacts_data : ContactsData) (events_data : EventsData)
          (business_answers : BusinessAnswers).

(** The summary page in closed form: the cards always; the three insight
    blocks unless the hour distribution is empty, in which case the run
    ends with the exception of [max].  The generator is not touched. *)
Lemma render_summary (r : R) :
  render (show_executive_summary contacts_data events_data business_answers) r =
  match Py.max_int (Py.values (hour_distribution (booking_patterns business_answers))) with
  | inl err => (summary_cards contacts_data events_data business_answers, inl err, r)
  | inr peak_count =>
      ((summary_cards contacts_data events_data business_answers
        ++ map insight_element (insights business_answers peak_count))%list,
       inr tt, r)
  end.
Proof.
  unfold render, show_executive_summary.
  destruct (Py.max_int _) as [err | peak_count]; reflexivity.
Qed.

Lemma rendered_summary_cards (r : R) :
  exists blocks,
    rendered (show_executive_summary contacts_data events_data business_answers) r
    = (summary_cards contacts_data events_data business_answers ++ blocks)%list
    /\ forall k, card k blocks = None.
Proof.
  unfold rendered. rewrite render_summary.
  destruct (Py.max_int _) as [err | peak_count]; cbn [fst].
  - exists []. split; [now rewrite app_nil_r | reflexivity].
  - eexists. split; [reflexivity | reflexivity].
Qed.

(** The card of column [k] of the summary page is read off the cards. *)
Lemma summary_card (r : R) (k : nat) :
  card k (rendered (show_executive_summary contacts_data events_data business_answers) r)
  = card k (summary_cards contacts_data events_data business_answers).
Proof.
  destruct (rendered_summary_cards r) as (blocks & -> & Hnone).
  unfold summary_cards.
  cbn [card app].
  repeat match goal with
         | |- context [Nat.eqb ?a k] => destruct (Nat.eqb a k); [reflexivity |]
         end.
  apply Hnone.
Qed.

(** The peak-hour card shows the [peak_hour] field, written as [str]
    writes it, before ":00". *)
Lemma peak_card (r : R) :
  card 4 (rendered (show_executive_summary contacts_data events_data business_answers) r)
  = Some (Py.str (peak_hour (booking_patterns business_answers)) ++ ":00").
Proof. rewrite summary_card. reflexivity. Qed.

End Summary.

(** Without hours in the distribution the summary page stops at the
    headings: [max] raises and no insight block is rendered. *)
Lemma no_hours_no_insights :
  render (show_executive_summary provider_contacts provider_events
            no_hours_answers) 0
  = (summary_cards provider_contacts provider_events no_hours_answers,
     inl (Py.ValueError "max() arg is an empty sequence"), 0).
Proof. reflexivity. Qed.

(** C7: with 9599 contacts and 1034 events in the snapshot, the first two
    cards of the summary page read "9,599" and "1,034". *)
Theorem headline_cards_thousands_separated
        {R : Type} `{RandomSource R}
        (c : ContactsData) (e : EventsData) (b : BusinessAnswers) (r : R) :
  total_contacts c = 9599 ->
  total_events e = 1034 ->
  card 1 (rendered (show_executive_summary c e b) r) = Some "9,599"
  /\ card 2 (rendered (show_executive_summary c e b) r) = Some "1,034".
Proof.
  intros Hc He. rewrite !summary_card. unfold summary_cards. cbn [card Nat.eqb].
  rewrite Hc, He. split; reflexivity.
Qed.

Lemma headline_cards_thousands_separated_witness :
  total_contacts provider_contacts = 9599
  /\ total_events provider_events = 1034
  /\ card 1 (rendered (show_executive_summary provider_contacts provider_events
                         provider_answers) 0)
     = Some "9,599"
  /\ card 2 (rendered (show_executive_summary provider_contacts provider_events
                         provider_answers) 0)
     = Some "1,034".
Proof.
  split; [reflexivity | split; [reflexivity |]].
  apply (headline_cards_thousands_separated
           provider_contacts provider_events provider_answers 0);
    reflexivity.
Defined.

(** C8, the claim fails: at nine o'clock the card reads "9:00", which is
    not two digits followed by ":00". *)
Lemma peak_card_not_two_digits :
  0 <= peak_hour (booking_patterns morning_answers) <= 23
  /\ card 4 (rendered (show_executive_summary provider_contacts provider_events
                         morning_answers) 0)
     = Some "9:00"
  /\ is_HH_00 "9:00" = false.
Proof. repeat split; try reflexivity; cbn; lia. Qed.

(** C8, amended: the card shows the hour without padding before ":00";
    that is two digits for the hours 10 to 23 and one digit for the hours
    0 to 9. *)
Theorem peak_card_format
        {R : Type} `{RandomSource R}
        (c : ContactsData) (e : EventsData) (b : BusinessAnswers) (r : R) :
  0 <= peak_hour (booking_patterns b) <= 23 ->
  exists shown,
    card 4 (rendered (show_executive_summary c e b) r) = Some shown
    /\ shown = Py.str (peak_hour (booking_patterns b)) ++ ":00"
    /\ is_HH_00 shown = (10 <=? peak_hour (booking_patterns b))
    /\ is_H_00 shown = (peak_hour (booking_patterns b) <? 10).
Proof.
  intros Hh. eexists. split; [apply peak_card |]. split; [reflexivity |].
  set (h := peak_hour (booking_patterns b)) in *.
  assert (Hall : forallb
            (fun h => Bool.eqb (is_HH_00 (Py.str h ++ ":00")) (10 <=? h)
                      && Bool.eqb (is_H_00 (Py.str h ++ ":00")) (h <? 10))
            (Py.range 0 24) = true) by (vm_compute; reflexivity).
  apply forall_range with (n := h) in Hall; [| lia].
  apply andb_true_iff in Hall as [H1 H2].
  apply Bool.eqb_prop in H1, H2. now split.
Qed.

Lemma peak_card_format_witness :
  0 <= peak_hour (booking_patterns provider_answers) <= 23
  /\ exists shown,
      card 4 (rendered (show_executive_summary provider_contacts provider_events
                          provider_answers) 0)
      = Some shown
      /\ shown = Py.str (peak_hour (booking_patterns provider_answers)) ++ ":00"
      /\ is_HH_00 shown = (10 <=? peak_hour (booking_patterns provider_answers))
      /\ is_H_00 shown = (peak_hour (booking_patterns provider_answers) <? 10).
Proof.
  split; [cbn; lia |].
  apply (peak_card_format provider_contacts provider_events provider_answers 0).
  cbn; lia.
Defined.

(** C2, the claim fails: when the [peak_hour] field is 9 while the counts
    peak at 16 and 19, the card reads "9:00". *)
Lemma peak_card_ignores_distribution :
  ~ card_shows_peak_key stale_answers
      (rendered (show_executive_summary provider_contacts provider_events
                   stale_answers) 0).
Proof.
  intros (k & Hk & Hcard).
  rewrite peak_card in Hcard.
  change (peak_keys (hour_distribution (booking_patterns stale_answers)))
    with [16; 19] in Hk.
  destruct Hk as [<- | [<- | []]]; discriminate Hcard.
Qed.

(** C2, amended: the card shows the snapshot's [peak_hour] field, whatever
    the distribution; in the provider's snapshot that field is one of the
    keys with the largest count. *)
Theorem peak_card_shows_peak_hour_field :
  (forall (R : Type) (S : RandomSource R)
          (c : ContactsData) (e : EventsData) (b : BusinessAnswers) (r : R),
      card 4 (rendered (show_executive_summary c e b) r)
      = Some (Py.str (peak_hour (booking_patterns b)) ++ ":00"))
  /\ In (peak_hour (booking_patterns provider_answers))
        (peak_keys (hour_distribution (booking_patterns provider_answers)))
  /\ (forall (R : Type) (S : RandomSource R) (r : R),
         card_shows_peak_key provider_answers
           (rendered (show_executive_summary provider_contacts provider_events
                        provider_answers) r)).
Proof.
  split; [intros; apply peak_card |].
  split; [left; reflexivity |].
  intros R S r. exists 16. split; [left; reflexivity |].
  rewrite peak_card. reflexivity.
Qed.

(** C10: in the provider's snapshot the largest count of the hour
    distribution is 78, it is reached at the two hours 16 and 19, and the
    [peak_hour] field is the first of them; the summary page shows that
    hour next to the count. *)
Theorem peak_hour_is_one_of_two_maxima :
  let d := hour_distribution (booking_patterns provider_answers) in
  Py.max_int (Py.values d) = inr 78
  /\ peak_keys d = [16; 19]
  /\ 16 <> 19
  /\ peak_hour (booking_patterns provider_answers) = 16
  /\ In (peak_hour (booking_patterns provider_answers)) (peak_keys d)
  /\ nth_error (insights provider_answers 78) 2
     = Some {| title := "Patrón de Reservas Óptimo";
               value := "Wednesday 16:00";
               description := "Hora pico con 78 reservas";
               recommendation := "Aumentar disponibilidad miércoles 16:00-17:00" |}.
Proof.
  cbv zeta. repeat split; try reflexivity.
  - discriminate.
  - left; reflexivity.
Qed.

(** ** Characters of formatted numbers *)

Lemma has_char_app (c : ascii) (s t : string) :
  has_char c (s ++ t) = has_char c s || has_char c t.
Proof.
  induction s as [| a s IH]; cbn; [reflexivity |].
  now rewrite IH, orb_assoc.
Qed.

(** A string holds every character of its prefixes. *)
Lemma prefix_has_char (c : ascii) (sub : string) :
  forall s, String.prefix sub s = true -> has_char c sub = true -> has_char c s = true.
Proof.
  induction sub as [| a sub IH]; intros s Hpre Hc; [discriminate Hc |].
  destruct s as [| b s]; cbn in Hpre; [discriminate Hpre |].
  destruct (ascii_dec a b) as [<- | _]; [| discriminate Hpre].
  cbn in *. apply orb_true_iff in Hc as [-> | Hc]; [reflexivity |].
  rewrite (IH s Hpre Hc). apply orb_true_r.
Qed.

(** A string holds every character of the strings it contains. *)
Lemma contains_has_char (c : ascii) (sub s : string) :
  Py.contains sub s = true -> has_char c sub = true -> has_char c s = true.
Proof.
  intros Hin Hc. induction s as [| b s IH]; cbn in Hin.
  - rewrite orb_false_r in Hin. now apply prefix_has_char with (sub := sub).
  - apply orb_true_iff in Hin as [Hpre | Hin].
    + now apply prefix_has_char with (sub := sub).
    + cbn. rewrite (IH Hin). apply orb_true_r.
Qed.

Lemma uint_no_underscore (d : Decimal.uint) :
  has_char "_" (NilEmpty.string_of_uint d) = false.
Proof. induction d; cbn [NilEmpty.string_of_uint has_char]; [reflexivity | exact IHd ..]. Qed.

(** [str] writes digits and a sign only. *)
Lemma str_no_underscore (n : Z) : has_char "_" (Py.str n) = false.
Proof.
  unfold Py.str, NilZero.string_of_int, NilZero.string_of_uint.
  destruct (Z.to_int n) as [d | d]; destruct d; cbn; try reflexivity;
    apply uint_no_underscore.
Qed.

Lemma zero_pad_no_underscore (width : nat) (n : Z) :
  has_char "_" (Py.zero_pad width n) = false.
Proof.
  unfold Py.zero_pad. rewrite has_char_app, str_no_underscore, orb_false_r.
  induction (width - String.length (Py.str n))%nat as [| k IH];
    [reflexivity | exact IH].
Qed.

(** Fixed-point notation has no underscore, whatever the float. *)
Lemma format_f_no_underscore (digits : nat) (x : float) :
  has_char "_" (Py.format_f digits x) = false.
Proof.
  unfold Py.format_f.
  destruct (Prim2SF x) as [s | s | | s m e]; try destruct s; destruct digits;
    cbn -[Py.str Py.zero_pad Z.pow Z.div Z.modulo Py.scaled_mantissa];
    rewrite ?has_char_app, ?str_no_underscore, ?zero_pad_no_underscore;
    try reflexivity;
    cbn -[Py.str Py.zero_pad Z.pow Z.div Z.modulo Py.scaled_mantissa];
    rewrite ?has_char_app, ?str_no_underscore, ?zero_pad_no_underscore;
    reflexivity.
Qed.

Lemma format_pct_no_underscore (digits : nat) (x : float) :
  has_char "_" (Py.format_pct digits x) = false.
Proof.
  unfold Py.format_pct. now rewrite has_char_app, format_f_no_underscore.
Qed.

(** ** The lead-time insight *)

(** C4, the claim fails: for the provider's snapshot, which has the window
    "1-2_Semanas" and the rate 0.101, the description of the block holds
    "10.1%" but not the window label. *)
Lemma lead_time_description_lacks_window :
  optimal_window (lead_time_analysis provider_answers) = "1-2_Semanas"
  /\ optimal_rate (lead_time_analysis provider_answers) = 0.101%float
  /\ exists i,
      lead_time_insight
        (rendered (show_executive_summary provider_contacts provider_events
                     provider_answers) 0) = Some i
      /\ description i = "10.1% asistencia vs 3.3% mismo día"
      /\ Py.contains "10.1%" (description i) = true
      /\ Py.contains "1-2_Semanas" (description i) = false.
Proof.
  split; [reflexivity | split; [reflexivity |]].
  eexists. split; [vm_compute; reflexivity |].
  repeat split; vm_compute; reflexivity.
Qed.

(** C4, amended: with the window "1-2_Semanas", the rate 0.101 and an hour
    distribution that is not empty, the lead-time block has the window
    label as its headline value, and its description, which holds "10.1%",
    is the two rates around fixed words; the description does not hold
    the window label. *)
Theorem lead_time_insight_block
        {R : Type} `{RandomSource R}
        (c : ContactsData) (e : EventsData) (b : BusinessAnswers) (r : R) :
  optimal_window (lead_time_analysis b) = "1-2_Semanas" ->
  optimal_rate (lead_time_analysis b) = 0.101%float ->
  hour_distribution (booking_patterns b) <> [] ->
  exists i,
    lead_time_insight (rendered (show_executive_summary c e b) r) = Some i
    /\ title i = "Ventana de Reserva Ideal"
    /\ value i = "1-2_Semanas"
    /\ description i
       = "10.1% asistencia vs "
         ++ Py.format_pct 1 (same_day_rate (lead_time_analysis b)) ++ " mismo día"
    /\ Py.contains "10.1%" (description i) = true
    /\ Py.contains "1-2_Semanas" (description i) = false.
Proof.
  intros Hwindow Hrate Hhours.
  unfold rendered. rewrite render_summary.
  destruct (hour_distribution (booking_patterns b)) as [| [k n] rest] eqn:Hd;
    [contradiction |].
  cbn [Py.values map snd Py.max_int fst].
  eexists. split; [reflexivity |].
  cbn [title value description].
  rewrite Hwindow, Hrate.
  repeat split; try reflexivity.
  match goal with
  | |- Py.contains ?label ?d = false => destruct (Py.contains label d) eqn:Hin
  end; [| reflexivity].
  apply contains_has_char with (c := "_"%char) in Hin; [| reflexivity].
  rewrite !has_char_app, !format_pct_no_underscore in Hin.
  discriminate Hin.
Qed.

Lemma lead_time_insight_block_witness :
  optimal_window (lead_time_analysis provider_answers) = "1-2_Semanas"
  /\ optimal_rate (lead_time_analysis provider_answers) = 0.101%float
  /\ hour_distribution (booking_patterns provider_answers) <> []
  /\ exists i,
      lead_time_insight
        (rendered (show_executive_summary provider_contacts provider_events
                     provider_answers) 0) = Some i
      /\ title i = "Ventana de Reserva Ideal"
      /\ value i = "1-2_Semanas"
      /\ description i
         = "10.1% asistencia vs "
           ++ Py.format_pct 1 (same_day_rate (lead_time_analysis provider_answers))
           ++ " mismo día"
      /\ Py.contains "10.1%" (description i) = true
      /\ Py.contains "1-2_Semanas" (description i) = false.
Proof.
  split; [reflexivity | split; [reflexivity | split; [discriminate |]]].
  apply (lead_time_insight_block provider_contacts provider_events
           provider_answers 0);
    [reflexivity | reflexivity | discriminate].
Defined.

(** ** The provider's data *)

(** C6: the segmentation shares of the provider's snapshot add up to one,
    and the percentages of the donut chart to one hundred, within a
    tolerance of 0.1 percent, both in float arithmetic and on the exact
    values of the floats. *)
Theorem segmentation_sums_to_whole :
  let shares := Py.values (segmentation provider_contacts) in
  let percentages := map (fun v => (v * 100)%float) shares in
  go.data (segmentation_figure provider_contacts)
  = [go.Pie (Py.keys (segmentation provider_contacts)) percentages 0.4
       ["#10B981"; "#3B82F6"; "#F59E0B"; "#EF4444"; "#6B7280"]]
  /\ PrimFloat.leb (abs (float_sum percentages - 100)) 0.1 = true
  /\ PrimFloat.leb (abs (float_sum shares - 1)) 0.001 = true
  /\ within_tolerance (exact_sum percentages) (inject_Z 100) (Qmake 1 10) = true
  /\ within_tolerance (exact_sum shares) (inject_Z 1) (Qmake 1 1000) = true.
Proof. cbv zeta. repeat split; vm_compute; reflexivity. Qed.

(** C9: in the provider's snapshot the two stored rates are the counts
    divided by the number of contacts and rounded to three places:
    1425/9599 gives 0.148 and 1477/9599 gives 0.154, both with Python's
    division and [round] and on the exact quotients. *)
Theorem stored_rates_match_counts :
  let c := provider_contacts in
  (exists q,
      Py.truediv (contacts_with_email c) (total_contacts c) = inr q
      /\ Py.round q 3 = email_rate c)
  /\ (exists q,
         Py.truediv (contacts_with_phone c) (total_contacts c) = inr q
         /\ Py.round q 3 = phone_rate c)
  /\ email_rate c = 0.148%float
  /\ phone_rate c = 0.154%float
  /\ Py.round_half_even (contacts_with_email c * 1000) (total_contacts c) = 148
  /\ Py.round_half_even (contacts_with_phone c * 1000) (total_contacts c) = 154.
Proof.
  cbv zeta. repeat split; try (eexists; split); vm_compute; reflexivity.
Qed.

(** ** The business-questions page *)

Section Questions.

Context {R : Type} `{RandomSource R}.

Lemma attendance_rate_run (day : Z) (w : st.Session R) :
  attendance_rate day w
  = (inr (fst (rate_of day (st.np_random w))),
     set_np_random (snd (rate_of day (st.np_random w))) w).
Proof.
  unfold attendance_rate, rate_of, np.random.uniform, st.ret, set_np_random.
  destruct w as [r c p]; simpl.
  repeat match goal with
         | |- context [if ?b then _ else _] => destruct b
         end;
    simpl; try reflexivity;
    match goal with
    | |- context [draw_uniform ?lo ?hi r] => destruct (draw_uniform lo hi r)
    end; reflexivity.
Qed.

(** The loop leaves the page alone, never raises, and appends the
    series to what it has accumulated. *)
Lemma fill_run (days : list Z) :
  forall (acc : list float) (w : st.Session R),
    st.for_ days
      (fun day attendance_rates =>
         rate <- attendance_rate day ;;
         st.ret (attendance_rates ++ [rate])%list)
      acc w
    = (inr (acc ++ fst (series days (st.np_random w)))%list,
       set_np_random (snd (series days (st.np_random w))) w).
Proof.
  induction days as [| day rest IH]; intros acc w.
  - cbn. rewrite app_nil_r. now destruct w.
  - cbn [st.for_ series]. unfold st.bind at 1 2.
    rewrite attendance_rate_run. unfold st.ret at 1.
    rewrite IH.
    destruct (rate_of day (st.np_random w)) as [v r1].
    destruct w as [r c p]. unfold set_np_random. simpl.
    destruct (series rest r1) as [vs r2]. simpl.
    now rewrite <- app_assoc.
Qed.

Lemma fill_attendance_rates_run (days : list Z) (w : st.Session R) :
  fill_attendance_rates days w
  = (inr (fst (series days (st.np_random w))),
     set_np_random (snd (series days (st.np_random w))) w).
Proof. unfold fill_attendance_rates. now rewrite fill_run. Qed.

Lemma series_length (days : list Z) :
  forall r : R, List.length (fst (series days r)) = List.length days.
Proof.
  induction days as [| day rest IH]; intros r; [reflexivity |].
  cbn [series]. destruct (rate_of day r) as [v r1].
  specialize (IH r1). destruct (series rest r1) as [vs r2].
  cbn [fst List.length] in *. now rewrite IH.
Qed.

(** The business-questions page in closed form: it always renders in
    full, with the series that the loop draws from the generator. *)
Lemma render_questions (b : BusinessAnswers) (r : R) :
  render (show_business_questions b) r
  = (questions_page b (fst (series (Py.range 1 32) r))
       (top_rate (fst (series (Py.range 1 32) r))),
     inr tt,
     snd (series (Py.range 1 32) r)).
Proof.
  unfold render, show_business_questions.
  cbn -[fill_attendance_rates Py.range Py.max_float attendance_figure
        lead_time_figure hour_figure month_figure].
  unfold st.bind at 1. rewrite fill_attendance_rates_run.
  cbn [st.np_random].
  pose proof (series_length (Py.range 1 32) r) as Hlen.
  destruct (series (Py.range 1 32) r) as [rates r'].
  cbn [fst snd] in *.
  destruct rates as [| v vs]; [discriminate Hlen |].
  reflexivity.
Qed.

(** The segmentation page in closed form; the generator is not
    touched. *)
Lemma render_segmentation (c : ContactsData) (e : EventsData) (r : R) :
  render (show_segmentation_metrics c e) r = (segmentation_page c e, inr tt, r).
Proof. reflexivity. Qed.

(** Every rate of the series is one of the two constants or a draw with
    the bounds of its third of the month. *)
Lemma series_sources (days : list Z) :
  forall r : R, Forall2 (rate_source (R := R)) days (fst (series days r)).
Proof.
  induction days as [| day rest IH]; intros r; cbn [series].
  - constructor.
  - assert (Hday : rate_source (R := R) day (fst (rate_of day r))).
    { unfold rate_source, rate_of, drawn.
      destruct (day =? 2); [reflexivity |].
      destruct (day =? 16); [reflexivity |].
      destruct (day <=? 10); [now exists r |].
      destruct (day <=? 20); now exists r. }
    destruct (rate_of day r) as [v r1]. specialize (IH r1).
    destruct (series rest r1) as [vs r2]. now constructor.
Qed.

Lemma rate_source_ok (day : Z) (v : float) :
  honours (R := R) 20 35 -> honours (R := R) 15 25 -> honours (R := R) 10 20 ->
  rate_source (R := R) day v -> rate_ok day v.
Proof.
  intros H1 H2 H3. unfold rate_ok, rate_source, drawn.
  destruct (day =? 2); [easy |].
  destruct (day =? 16); [easy |].
  destruct (day <=? 10); [intros [r ->]; apply H1 |].
  destruct (day <=? 20); intros [r ->]; [apply H2 | apply H3].
Qed.

Lemma series_ok (days : list Z) :
  honours (R := R) 20 35 -> honours (R := R) 15 25 -> honours (R := R) 10 20 ->
  forall r : R, Forall2 rate_ok days (fst (series days r)).
Proof.
  intros H1 H2 H3 r.
  pose proof (series_sources days r) as Hsrc.
  induction Hsrc as [| day v rest vs Hday _ IH]; constructor;
    [now apply rate_source_ok | exact IH].
Qed.

(** The rates of a series are fixed by its filler values: the two other
    rates are constants. *)
Lemma series_from_fillers (days : list Z) :
  forall r1 r2 : R,
    map snd (filter (fun xy => negb (is_fixed_day (fst xy)))
               (combine (map go.Num days) (fst (series days r1))))
    = map snd (filter (fun xy => negb (is_fixed_day (fst xy)))
                 (combine (map go.Num days) (fst (series days r2)))) ->
    fst (series days r1) = fst (series days r2).
Proof.
  induction days as [| day rest IH]; intros r1 r2; [reflexivity |].
  cbn [series map]. unfold rate_of.
  destruct (day =? 2) eqn:E2; [| destruct (day =? 16) eqn:E16].
  - specialize (IH r1 r2).
    destruct (series rest r1) as [vs1 s1], (series rest r2) as [vs2 s2].
    cbn [fst combine filter is_fixed_day]. rewrite E2. cbn [orb negb].
    intros Hfill. cbn [fst] in IH. now rewrite (IH Hfill).
  - specialize (IH r1 r2).
    destruct (series rest r1) as [vs1 s1], (series rest r2) as [vs2 s2].
    cbn [fst combine filter is_fixed_day]. rewrite E2, E16. cbn [orb negb].
    intros Hfill. cbn [fst] in IH. now rewrite (IH Hfill).
  - set (d1 := if day <=? 10 then draw_uniform 20 35 r1
               else if day <=? 20 then draw_uniform 15 25 r1
               else draw_uniform 10 20 r1).
    set (d2 := if day <=? 10 then draw_uniform 20 35 r2
               else if day <=? 20 then draw_uniform 15 25 r2
               else draw_uniform 10 20 r2).
    destruct d1 as [v1 t1], d2 as [v2 t2].
    specialize (IH t1 t2).
    destruct (series rest t1) as [vs1 s1], (series rest t2) as [vs2 s2].
    cbn [fst combine filter is_fixed_day]. rewrite E2, E16.
    cbn [orb negb map snd].
    intros Hfill. injection Hfill as -> Hrest. cbn [fst] in IH.
    now rewrite (IH Hrest).
Qed.

End Questions.

(** The navigation reaches the three renderers, in the order of
    [pages]. *)
Lemma show_page_dispatch {R : Type} `{RandomSource R}
      (c : ContactsData) (e : EventsData) (b : BusinessAnswers) :
  map (fun page => show_page page (c, e, b)) pages
  = [show_executive_summary c e b;
     show_business_questions b;
     show_segmentation_metrics c e].
Proof. reflexivity. Qed.

Lemma filler_values_questions (b : BusinessAnswers) (rates : list float)
      (top : float) :
  filler_values (questions_page b rates top)
  = map snd (filter (fun xy => negb (is_fixed_day (fst xy)))
               (combine (map go.Num (Py.range 1 32)) rates)).
Proof. reflexivity. Qed.

(** The generator of period four keeps the bounds of the three calls. *)
Lemma cyclic_source_honours :
  honours (R := Z) 20 35 /\ honours (R := Z) 15 25 /\ honours (R := Z) 10 20.
Proof.
  repeat split; intros s; cbn [draw_uniform cyclic_source fst];
    unfold unit_sample;
    pose proof (Z.mod_pos_bound s 4 ltac:(lia)) as Hs;
    destruct (s mod 4) as [| [[|p|]|[|p|]|] |]; try lia; reflexivity.
Qed.

(** ** Chart A: the attendance series *)

(** C3: Chart A plots 31 rates against the days 1 to 31; the rate of day 2
    is 66.7 and that of day 16 is 0.0; with a generator that keeps its
    bounds, every other rate lies in [20,35] on days 1 to 10, in [15,25] on
    days 11 to 20 and in [10,20] on days 21 to 31. *)
Theorem attendance_series_shape
        {R : Type} `{RandomSource R} (b : BusinessAnswers) (r : R) :
  honours (R := R) 20 35 -> honours (R := R) 15 25 -> honours (R := R) 10 20 ->
  exists rates,
    chart_A_series (rendered (show_business_questions b) r)
    = Some (map go.Num (Py.range 1 32), rates)
    /\ List.length rates = 31%nat
    /\ forall day, 1 <= day <= 31 ->
         exists v,
           nth_error (map go.Num (Py.range 1 32)) (Z.to_nat (day - 1))
           = Some (go.Num day)
           /\ nth_error rates (Z.to_nat (day - 1)) = Some v
           /\ (day = 2 -> v = 66.7%float)
           /\ (day = 16 -> v = 0.0%float)
           /\ (day <> 2 -> day <> 16 ->
               (day <= 10 -> within_range 20 35 v = true)
               /\ (11 <= day <= 20 -> within_range 15 25 v = true)
               /\ (21 <= day -> within_range 10 20 v = true)).
Proof.
  intros H1 H2 H3.
  exists (fst (series (Py.range 1 32) r)).
  unfold rendered. rewrite render_questions. cbn [fst].
  split; [reflexivity |].
  split; [now rewrite series_length |].
  intros day Hday.
  assert (Hnth : nth_error (Py.range 1 32) (Z.to_nat (day - 1)) = Some day).
  { assert (Hall : forallb
              (fun d => match nth_error (Py.range 1 32) (Z.to_nat (d - 1)) with
                        | Some d' => d' =? d
                        | None => false
                        end)
              (Py.range 1 32) = true) by (vm_compute; reflexivity).
    apply forall_range with (n := day) in Hall; [| lia].
    destruct (nth_error (Py.range 1 32) (Z.to_nat (day - 1)));
      [apply Z.eqb_eq in Hall; now subst | discriminate Hall]. }
  destruct (@Forall2_nth_error _ _ _ _ _ _ _
              (series_ok (Py.range 1 32) H1 H2 H3 r) Hnth)
    as (v & Hv & Hok).
  exists v. split; [now rewrite nth_error_map, Hnth |].
  split; [exact Hv |].
  unfold rate_ok in Hok.
  destruct (Z.eqb_spec day 2) as [-> | Hne2].
  { repeat split; try easy; lia. }
  destruct (Z.eqb_spec day 16) as [-> | Hne16].
  { repeat split; try easy; lia. }
  destruct (Z.leb_spec day 10).
  { repeat split; try easy; lia. }
  destruct (Z.leb_spec day 20); repeat split; try easy; lia.
Qed.

Lemma attendance_series_shape_witness :
  honours (R := Z) 20 35 /\ honours (R := Z) 15 25 /\ honours (R := Z) 10 20
  /\ exists rates,
      chart_A_series (rendered (show_business_questions provider_answers) 0)
      = Some (map go.Num (Py.range 1 32), rates)
      /\ List.length rates = 31%nat
      /\ forall day, 1 <= day <= 31 ->
           exists v,
             nth_error (map go.Num (Py.range 1 32)) (Z.to_nat (day - 1))
             = Some (go.Num day)
             /\ nth_error rates (Z.to_nat (day - 1)) = Some v
             /\ (day = 2 -> v = 66.7%float)
             /\ (day = 16 -> v = 0.0%float)
             /\ (day <> 2 -> day <> 16 ->
                 (day <= 10 -> within_range 20 35 v = true)
                 /\ (11 <= day <= 20 -> within_range 15 25 v = true)
                 /\ (21 <= day -> within_range 10 20 v = true)).
Proof.
  destruct cyclic_source_honours as (H1 & H2 & H3).
  split; [exact H1 | split; [exact H2 | split; [exact H3 |]]].
  exact (attendance_series_shape provider_answers 0 H1 H2 H3).
Defined.

(** ** Chart B: the lead-time chart *)

(** C5: for every snapshot and generator state, the second chart of the
    business-questions page is the lead-time chart; its line has the six
    buckets from same-day to more than a month in that order, which is not
    the alphabetical one, and a second trace puts a star on the 1-2-week
    point, the only marker of the chart with a symbol. *)
Theorem lead_time_chart_order
        {R : Type} `{RandomSource R} (b : BusinessAnswers) (r : R) :
  exists fig,
    nth_error (charts (rendered (show_business_questions b) r)) 1 = Some fig
    /\ fig = lead_time_figure
    /\ go.data fig
       = [go.Scatter
            (map go.Cat ["Mismo_Día"; "1-3_Días"; "4-7_Días"; "1-2_Semanas";
                         "2-4_Semanas"; "Más_1_Mes"])
            [3.3; 4.7; 5.5; 10.1; 8.6; 0.0]%float None
            "lines+markers" "% Asistencia"
            (Some {| go.line_color := "#EF4444"; go.width := 4 |})
            {| go.size := 12; go.color := "#EF4444"; go.symbol := None |};
          go.Scatter [go.Cat "1-2_Semanas"] [10.1%float] None
            "markers" "Punto Óptimo" None
            {| go.size := 20; go.color := "#10B981"; go.symbol := Some "star" |}]
    /\ List.length lead_times = 6%nat
    /\ alphabetical lead_times = false
    /\ nth_error lead_times 3 = Some "1-2_Semanas"
    /\ nth_error attendance_by_leadtime 3 = Some 10.1%float.
Proof.
  exists lead_time_figure.
  unfold rendered. rewrite render_questions.
  repeat split; reflexivity.
Qed.

(** ** Rendering twice *)

(** C1: for every snapshot, two runs of a page from any two generator
    states render the same summary page and the same segmentation page,
    and leave the generator as it was; two runs of the business-questions
    page end alike and agree outside Chart A, and they agree on the whole
    page as soon as they agree on the filler values of Chart A; from the
    same generator state the page is the same. *)
Theorem rendering_twice
        {R : Type} `{RandomSource R}
        (c : ContactsData) (e : EventsData) (b : BusinessAnswers) (r1 r2 : R) :
  let summary := show_executive_summary c e b in
  let questions := show_business_questions b in
  let segments := show_segmentation_metrics c e in
  (fst (render summary r1) = fst (render summary r2)
   /\ snd (render summary r1) = r1)
  /\ (fst (render segments r1) = fst (render segments r2)
      /\ snd (render segments r1) = r1)
  /\ snd (fst (render questions r1)) = snd (fst (render questions r2))
  /\ without_first_chart (rendered questions r1)
     = without_first_chart (rendered questions r2)
  /\ (filler_values (rendered questions r1)
      = filler_values (rendered questions r2) ->
      rendered questions r1 = rendered questions r2)
  /\ (r1 = r2 -> render questions r1 = render questions r2).
Proof.
  cbv zeta. unfold rendered.
  rewrite !render_summary, !render_segmentation, !render_questions.
  split.
  { destruct (Py.max_int _); split; reflexivity. }
  split; [split; reflexivity |].
  split; [reflexivity |].
  split; [reflexivity |].
  split; [| now intros ->].
  cbn [fst]. rewrite !filler_values_questions. intros Hfill.
  now rewrite (series_from_fillers _ _ _ Hfill).
Qed.

Lemma rendering_twice_witness :
  filler_values (rendered (show_business_questions provider_answers) 0)
  = filler_values (rendered (show_business_questions provider_answers) 4)
  /\ 0 <> 4
  /\ rendered (show_business_questions provider_answers) 0
     = rendered (show_business_questions provider_answers) 4.
Proof.
  split; [vm_compute; reflexivity |].
  split; [discriminate |].
  apply (rendering_twice provider_contacts provider_events provider_answers 0 4).
  vm_compute; reflexivity.
Defined.

(** * Further properties of the dashboard *)

(** ** The largest count *)

Lemma fold_max_spec (rest : list Z) :
  forall x : Z,
    let top := fold_left (fun m v => if m <? v then v else m) rest x in
    In top (x :: rest) /\ forall v, In v (x :: rest) -> v <= top.
Proof.
  induction rest as [| y rest IH]; intros x; cbn [fold_left].
  - split; [now left | intros v [<- | []]; lia].
  - destruct (IH (if x <? y then y else x)) as [Hin Hmax]. split.
    + destruct Hin as [Hin | Hin]; [| now right; right].
      rewrite <- Hin. destruct (x <? y); [right; now left | now left].
    + intros v [<- | [<- | Hv]].
      * specialize (Hmax _ (or_introl eq_refl)).
        destruct (Z.ltb_spec x y); lia.
      * specialize (Hmax _ (or_introl eq_refl)).
        destruct (Z.ltb_spec x y); lia.
      * apply Hmax. now right.
Qed.

(** [max] raises on the empty list only, and otherwise returns an element
    that no element exceeds. *)
Lemma max_int_spec (xs : list Z) :
  match Py.max_int xs with
  | inl _ => xs = []
  | inr top => In top xs /\ forall v, In v xs -> v <= top
  end.
Proof.
  destruct xs as [| x rest]; [reflexivity |]. apply fold_max_spec.
Qed.

(** X1: the summary page ends with [ValueError] exactly when the hour
    distribution is empty; it then shows the four cards and the two
    headings and nothing else, and otherwise it completes with three
    insight blocks after them. *)
Theorem summary_raises_iff_no_hours
        {R : Type} `{RandomSource R}
        (c : ContactsData) (e : EventsData) (b : BusinessAnswers) (r : R) :
  match hour_distribution (booking_patterns b) with
  | [] =>
      render (show_executive_summary c e b) r
      = (summary_cards c e b,
         inl (Py.ValueError "max() arg is an empty sequence"), r)
  | _ :: _ =>
      exists blocks,
        render (show_executive_summary c e b) r
        = ((summary_cards c e b ++ blocks)%list, inr tt, r)
        /\ List.length (insight_blocks blocks) = 3%nat
        /\ List.length blocks = 3%nat
  end.
Proof.
  rewrite render_summary.
  destruct (hour_distribution (booking_patterns b)) as [| [k n] rest];
    [reflexivity |].
  cbn [Py.values map Py.max_int].
  eexists. split; [reflexivity |]. split; reflexivity.
Qed.

(** X2: when some hour has bookings, the third insight block reports a count
    that is the count of some hour of the distribution and that no hour
    exceeds. *)
Theorem third_insight_reports_largest_count
        {R : Type} `{RandomSource R}
        (c : ContactsData) (e : EventsData) (b : BusinessAnswers) (r : R)
        (hour count : Z) :
  In (hour, count) (hour_distribution (booking_patterns b)) ->
  exists i top peak,
    nth_error (insight_blocks (rendered (show_executive_summary c e b) r)) 2
    = Some i
    /\ description i = "Hora pico con " ++ Py.str top ++ " reservas"
    /\ In (peak, top) (hour_distribution (booking_patterns b))
    /\ count <= top.
Proof.
  intros Hin.
  unfold rendered. rewrite render_summary.
  pose proof (max_int_spec (Py.values (hour_distribution (booking_patterns b))))
    as Hmax.
  destruct (Py.max_int _) as [err | top].
  - unfold Py.values in Hmax. apply map_eq_nil in Hmax.
    rewrite Hmax in Hin. destruct Hin.
  - destruct Hmax as [Htop Hle].
    unfold Py.values in Htop. apply in_map_iff in Htop as ([peak n] & Hn & Hpeak).
    cbn in Hn. subst n.
    eexists _, top, peak. split; [reflexivity |].
    split; [reflexivity |]. split; [exact Hpeak |].
    apply Hle. unfold Py.values. apply in_map_iff. now exists (hour, count).
Qed.

Lemma third_insight_reports_largest_count_witness :
  In (17, 74) (hour_distribution (booking_patterns provider_answers))
  /\ exists i top peak,
      nth_error (insight_blocks
                   (rendered (show_executive_summary provider_contacts
                                provider_events provider_answers) 0)) 2
      = Some i
      /\ description i = "Hora pico con " ++ Py.str top ++ " reservas"
      /\ In (peak, top) (hour_distribution (booking_patterns provider_answers))
      /\ 74 <= top.
Proof.
  assert (Hin : In (17, 74) (hour_distribution (booking_patterns provider_answers)))
    by (cbn; auto).
  split; [exact Hin |].
  exact (third_insight_reports_largest_count provider_contacts provider_events
           provider_answers 0 17 74 Hin).
Defined.

(** ** Thousands separators *)

Lemma string_of_list_of_string (s : string) :
  Py.string_of_list (list_ascii_of_string s) = s.
Proof.
  unfold Py.string_of_list.
  induction s as [| a s IH]; cbn; [reflexivity | now rewrite IH].
Qed.

Lemma list_of_string_of_list (l : list ascii) :
  list_ascii_of_string (Py.string_of_list l) = l.
Proof.
  unfold Py.string_of_list.
  induction l as [| a l IH]; cbn; [reflexivity | now rewrite IH].
Qed.

(** The characters that [str] writes for a number that is not negative
    are digits, and there is at least one. *)
Lemma uint_digits (d : Decimal.uint) :
  Forall (fun c => is_digit c = true)
         (list_ascii_of_string (NilEmpty.string_of_uint d)).
Proof. induction d; cbn [NilEmpty.string_of_uint list_ascii_of_string]; constructor; auto. Qed.

Lemma str_digits (n : Z) :
  0 <= n ->
  Forall (fun c => is_digit c = true) (list_ascii_of_string (Py.str n))
  /\ list_ascii_of_string (Py.str n) <> [].
Proof.
  intros Hn. unfold Py.str.
  destruct n as [| p | p]; [| | lia].
  - split; [repeat constructor | discriminate].
  - cbn [Z.to_int NilZero.string_of_int].
    pose proof (DecimalPos.Unsigned.to_uint_nonnil p) as Hnil.
    unfold NilZero.string_of_uint.
    destruct (Pos.to_uint p) eqn:E; [contradiction | ..];
      (split; [apply uint_digits | discriminate]).
Qed.

Lemma str_negative (p : positive) :
  Py.str (Z.neg p) = String "-" (Py.str (Z.pos p)).
Proof. reflexivity. Qed.

Lemma digit_not_comma (c : ascii) : is_digit c = true -> is_comma c = false.
Proof.
  unfold is_digit, is_comma. intros Hd.
  destruct (Ascii.eqb_spec c ","%char) as [-> |]; [discriminate Hd | reflexivity].
Qed.

(** [group3] by induction on a bound of the length of its argument. *)
Lemma group3_spec (bound : nat) :
  forall l : list ascii,
    (List.length l <= bound)%nat ->
    Forall (fun c => is_digit c = true) l ->
    filter (fun c => negb (is_comma c)) (Py.group3 l) = l
    /\ (l <> [] -> grouped_from_end (Py.group3 l) = true).
Proof.
  induction bound as [| bound IH]; intros l Hlen Hdigits.
  - destruct l; [| cbn in Hlen; lia]. split; [reflexivity | congruence].
  - destruct l as [| a [| b [| c [| d more]]]].
    + split; [reflexivity | congruence].
    + inversion Hdigits as [| ? ? Ha _]; subst.
      cbn. rewrite (digit_not_comma _ Ha). cbn. split; auto.
    + inversion Hdigits as [| ? ? Ha Hr]; subst.
      inversion Hr as [| ? ? Hb _]; subst.
      cbn. rewrite (digit_not_comma _ Ha), (digit_not_comma _ Hb), Ha, Hb.
      cbn. split; auto.
    + inversion Hdigits as [| ? ? Ha Hr]; subst.
      inversion Hr as [| ? ? Hb Hr2]; subst.
      inversion Hr2 as [| ? ? Hc _]; subst.
      cbn. rewrite (digit_not_comma _ Ha), (digit_not_comma _ Hb),
        (digit_not_comma _ Hc), Ha, Hb, Hc.
      cbn. split; auto.
    + inversion Hdigits as [| ? ? Ha Hr]; subst.
      inversion Hr as [| ? ? Hb Hr2]; subst.
      inversion Hr2 as [| ? ? Hc Hr3]; subst.
      destruct (IH (d :: more)) as [Hfilter Hgrouped];
        [cbn in *; lia | exact Hr3 |].
      specialize (Hgrouped ltac:(discriminate)).
      change (Py.group3 (a :: b :: c :: d :: more))
        with (a :: b :: c :: ","%char :: Py.group3 (d :: more)).
      split.
      * cbn [filter]. rewrite (digit_not_comma _ Ha), (digit_not_comma _ Hb),
          (digit_not_comma _ Hc). cbn [negb is_comma Ascii.eqb].
        change (negb (is_comma ","%char)) with false. cbv iota.
        now rewrite Hfilter.
      * intros _.
        destruct (Py.group3 (d :: more)) as [| x rest] eqn:E;
          [discriminate Hgrouped |].
        change (grouped_from_end (a :: b :: c :: ","%char :: x :: rest))
          with (is_digit a && is_digit b && is_digit c && is_comma ","%char
                && grouped_from_end (x :: rest)).
        rewrite Ha, Hb, Hc, Hgrouped. reflexivity.
Qed.

(** Taking the commas out of [format(n, ",")] gives back [str(n)]. *)
Lemma remove_commas_format_comma (n : Z) :
  remove_commas (Py.format_comma n) = Py.str n.
Proof.
  assert (Hpos : forall m, 0 <= m ->
            remove_commas
              (Py.string_of_list
                 (rev (Py.group3 (rev (list_ascii_of_string (Py.str m))))))
            = Py.str m).
  { intros m Hm. unfold remove_commas.
    rewrite list_of_string_of_list, filter_rev.
    destruct (str_digits Hm) as [Hdigits _].
    destruct (group3_spec (l := rev (list_ascii_of_string (Py.str m))) (le_n _))
      as [-> _].
    - apply Forall_rev, Hdigits.
    - now rewrite rev_involutive, string_of_list_of_string. }
  unfold Py.format_comma.
  destruct n as [| p | p].
  - reflexivity.
  - change (Z.pos p <? 0) with false. cbv iota.
    change (Z.abs (Z.pos p)) with (Z.pos p). apply Hpos. lia.
  - change (Z.neg p <? 0) with true. cbv iota.
    change (Z.abs (Z.neg p)) with (Z.pos p).
    rewrite str_negative. specialize (Hpos (Z.pos p) ltac:(lia)).
    unfold remove_commas in *. cbn [String.append list_ascii_of_string filter].
    change (negb (is_comma "-"%char)) with true. cbv iota.
    cbn [Py.string_of_list fold_right]. 
    change (fold_right String EmptyString) with Py.string_of_list.
    now rewrite Hpos.
Qed.

Lemma format_comma_grouped (n : Z) :
  0 <= n -> thousands_grouped (Py.format_comma n) = true.
Proof.
  intros Hn. unfold thousands_grouped, Py.format_comma.
  rewrite (proj2 (Z.ltb_ge n 0)) by lia.
  rewrite Z.abs_eq by lia.
  rewrite list_of_string_of_list, rev_involutive.
  destruct (str_digits Hn) as [Hdigits Hnil].
  destruct (group3_spec (l := rev (list_ascii_of_string (Py.str n))) (le_n _))
    as [_ Hgrouped].
  - apply Forall_rev, Hdigits.
  - apply Hgrouped. intros Hrev. apply Hnil.
    apply (f_equal (@rev ascii)) in Hrev. now rewrite rev_involutive in Hrev.
Qed.

(** ** What the cards show for any number *)

(** X3: for every snapshot the two headline cards, read without their
    commas, are the decimal numerals of the two counts. *)
Theorem headline_cards_read_back
        {R : Type} `{RandomSource R}
        (c : ContactsData) (e : EventsData) (b : BusinessAnswers) (r : R) :
  exists contacts events,
    card 1 (rendered (show_executive_summary c e b) r) = Some contacts
    /\ card 2 (rendered (show_executive_summary c e b) r) = Some events
    /\ remove_commas contacts = Py.str (total_contacts c)
    /\ remove_commas events = Py.str (total_events e).
Proof.
  rewrite !summary_card. unfold summary_cards. cbn [card Nat.eqb].
  eexists _, _. split; [reflexivity |]. split; [reflexivity |].
  split; apply remove_commas_format_comma.
Qed.

(** X4: when the two counts are not negative, each headline card is made of
    digits in groups of three separated by commas, the leading group
    having one to three digits. *)
Theorem headline_cards_grouped
        {R : Type} `{RandomSource R}
        (c : ContactsData) (e : EventsData) (b : BusinessAnswers) (r : R) :
  0 <= total_contacts c ->
  0 <= total_events e ->
  exists contacts events,
    card 1 (rendered (show_executive_summary c e b) r) = Some contacts
    /\ card 2 (rendered (show_executive_summary c e b) r) = Some events
    /\ thousands_grouped contacts = true
    /\ thousands_grouped events = true.
Proof.
  intros Hc He.
  rewrite !summary_card. unfold summary_cards. cbn [card Nat.eqb].
  eexists _, _. split; [reflexivity |]. split; [reflexivity |].
  split; now apply format_comma_grouped.
Qed.

Lemma headline_cards_grouped_witness :
  0 <= total_contacts provider_contacts
  /\ 0 <= total_events provider_events
  /\ exists contacts events,
      card 1 (rendered (show_executive_summary provider_contacts provider_events
                          provider_answers) 0) = Some contacts
      /\ card 2 (rendered (show_executive_summary provider_contacts provider_events
                             provider_answers) 0) = Some events
      /\ thousands_grouped contacts = true
      /\ thousands_grouped events = true.
Proof.
  split; [cbn; lia | split; [cbn; lia |]].
  apply (headline_cards_grouped provider_contacts provider_events
           provider_answers 0); cbn; lia.
Defined.

(** ** Percentages *)

Lemma string_append_assoc (a b c : string) : (a ++ b) ++ c = a ++ b ++ c.
Proof. induction a as [| x a IH]; cbn; [reflexivity | now rewrite IH]. Qed.

(** [round_half_even] returns a nearest integer to the quotient, and the
    even one of the two when the quotient lies half way. *)
Lemma round_half_even_nearest (num den : Z) :
  0 < den ->
  let q := Py.round_half_even num den in
  2 * Z.abs (num - q * den) <= den
  /\ (2 * Z.abs (num - q * den) = den -> Z.even q = true).
Proof.
  intros Hden. unfold Py.round_half_even. cbv zeta.
  pose proof (Z.div_mod num den ltac:(lia)) as Hdm.
  pose proof (Z.mod_pos_bound num den Hden) as Hr.
  destruct (Z.compare_spec (2 * (num mod den)) den) as [Heq | Hlt | Hgt].
  - destruct (Z.even (num / den)) eqn:Heven.
    + split; [nia | auto].
    + split; [nia |]. intros _.
      rewrite Z.even_add, Heven. reflexivity.
  - split; [nia | nia].
  - split; [nia | nia].
Qed.

(** X5: a percentage with one decimal that the dashboard shows for a finite
    product [rate * 100] of exact value [m * 2^e] is the sign followed by
    the decimal numeral of [n / 10], where [n] is an integer nearest to
    ten times that exact value, the even one in a tie. *)
Theorem shown_percentage_is_nearest
        (rate : float) (s : bool) (m : positive) (e : Z) :
  Prim2SF (rate * 100)%float = S754_finite s m e ->
  exists n : Z,
    Py.format_pct 1 rate
    = (if s then "-" else "") ++ Py.str (n / 10) ++ "."
      ++ Py.zero_pad 1 (n mod 10) ++ "%"
    /\ (let k := Z.max 0 (- e) in
        2 * Z.abs (Z.pos m * 10 * 2 ^ (e + k) - n * 2 ^ k) <= 2 ^ k
        /\ (2 * Z.abs (Z.pos m * 10 * 2 ^ (e + k) - n * 2 ^ k) = 2 ^ k ->
            Z.even n = true)).
Proof.
  intros Hspec. exists (Py.scaled_mantissa 1 m e). split.
  - unfold Py.format_pct, Py.format_f. rewrite Hspec.
    change (10 ^ Z.of_nat 1) with 10.
    now rewrite !string_append_assoc.
  - unfold Py.scaled_mantissa. change (10 ^ Z.of_nat 1) with 10. cbv zeta.
    destruct (Z.leb_spec 0 e) as [He | He].
    + rewrite Z.max_l by lia. rewrite Z.add_0_r. change (2 ^ 0) with 1.
      split; [lia | lia].
    + rewrite Z.max_r by lia. replace (e + - e) with 0 by lia.
      change (2 ^ 0) with 1. rewrite Z.mul_1_r.
      apply round_half_even_nearest. apply Z.pow_pos_nonneg; lia.
Qed.

Lemma shown_percentage_is_nearest_witness :
  Prim2SF (0.101 * 100)%float = S754_finite false 5685794529555252 (-49)
  /\ exists n : Z,
      Py.format_pct 1 0.101
      = "" ++ Py.str (n / 10) ++ "." ++ Py.zero_pad 1 (n mod 10) ++ "%"
      /\ (let k := Z.max 0 (- -49) in
          2 * Z.abs (5685794529555252 * 10 * 2 ^ (-49 + k) - n * 2 ^ k) <= 2 ^ k
          /\ (2 * Z.abs (5685794529555252 * 10 * 2 ^ (-49 + k) - n * 2 ^ k) = 2 ^ k ->
              Z.even n = true)).
Proof.
  split; [vm_compute; reflexivity |].
  apply (@shown_percentage_is_nearest 0.101 false 5685794529555252 (-49)).
  vm_compute; reflexivity.
Defined.

(** X6: a rate that is not a number or is infinite is not rejected: the
    segmentation page completes and shows it as "nan%", "inf%" or
    "-inf%". *)
Theorem non_finite_rate_shown
        {R : Type} `{RandomSource R}
        (c : ContactsData) (e : EventsData) (r : R) (text : string) :
  In (email_rate c, text)
     [(nan, "nan%"); (infinity, "inf%"); (neg_infinity, "-inf%")] ->
  snd (fst (render (show_segmentation_metrics c e) r)) = inr tt
  /\ In (st.Column 2, st.Metric "📧 Tasa de Email" text)
        (rendered (show_segmentation_metrics c e) r).
Proof.
  intros Hin. unfold rendered. rewrite render_segmentation.
  split; [reflexivity |].
  unfold segmentation_page. cbn [fst].
  do 5 right. left.
  destruct Hin as [Heq | [Heq | [Heq | []]]]; injection Heq as <- <-;
    reflexivity.
Qed.

Lemma non_finite_rate_shown_witness :
  In (email_rate {| total_contacts := 0; contacts_with_email := 0;
                    contacts_with_phone := 0; email_rate := nan;
                    phone_rate := infinity; avg_completeness := nan;
                    segmentation := [] |}, "nan%")
     [(nan, "nan%"); (infinity, "inf%"); (neg_infinity, "-inf%")]
  /\ snd (fst (render (show_segmentation_metrics
                         {| total_contacts := 0; contacts_with_email := 0;
                            contacts_with_phone := 0; email_rate := nan;
                            phone_rate := infinity; avg_completeness := nan;
                            segmentation := [] |} provider_events) 0)) = inr tt
  /\ In (st.Column 2, st.Metric "📧 Tasa de Email" "nan%")
        (rendered (show_segmentation_metrics
                     {| total_contacts := 0; contacts_with_email := 0;
                        contacts_with_phone := 0; email_rate := nan;
                        phone_rate := infinity; avg_completeness := nan;
                        segmentation := [] |} provider_events) 0).
Proof.
  split; [left; reflexivity |].
  apply (non_finite_rate_shown
           {| total_contacts := 0; contacts_with_email := 0;
              contacts_with_phone := 0; email_rate := nan;
              phone_rate := infinity; avg_completeness := nan;
              segmentation := [] |} provider_events 0 (text := "nan%")).
  left; reflexivity.
Defined.

(** ** The draws of Chart A *)

Section Draws.

Context {R : Type} `{RandomSource R}.

(** The fillers of a series and the generator after it are those of the
    draws for its days. *)
Lemma series_draws (days : list Z) :
  forall r : R,
    map snd (filter (fun xy => negb (is_fixed_day (fst xy)))
               (combine (map go.Num days) (fst (series days r))))
    = fst (draw_all (calls_of days) r)
    /\ snd (series days r) = snd (draw_all (calls_of days) r).
Proof.
  induction days as [| day rest IH]; intros r; [split; reflexivity |].
  cbn [series map calls_of flat_map]. unfold rate_of.
  destruct (day =? 2) eqn:E2; [| destruct (day =? 16) eqn:E16]; cbn [orb app].
  - destruct (IH r) as [IHv IHr]. fold (calls_of rest).
    destruct (series rest r) as [vs s].
    cbn [fst snd combine filter is_fixed_day] in *. rewrite E2. cbn [orb negb].
    now split.
  - destruct (IH r) as [IHv IHr]. fold (calls_of rest).
    destruct (series rest r) as [vs s].
    cbn [fst snd combine filter is_fixed_day] in *. rewrite E2, E16.
    cbn [orb negb]. now split.
  - fold (calls_of rest).
    assert (Hstep : forall low high,
               let (v, r1) := draw_uniform low high r in
               map snd (filter (fun xy => negb (is_fixed_day (fst xy)))
                          (combine (go.Num day :: map go.Num rest)
                             (fst (let (vs, r2) := series rest r1 in (v :: vs, r2)))))
               = fst (draw_all ((low, high) :: calls_of rest) r)
               /\ snd (let (vs, r2) := series rest r1 in (v :: vs, r2))
                  = snd (draw_all ((low, high) :: calls_of rest) r)).
    { intros low high. cbn [draw_all].
      destruct (draw_uniform low high r) as [v r1].
      destruct (IH r1) as [IHv IHr].
      destruct (series rest r1) as [vs s].
      destruct (draw_all (calls_of rest) r1) as [ws t].
      cbn [fst snd combine filter is_fixed_day map] in *.
      rewrite E2, E16. cbn [orb negb map snd]. split; congruence. }
    destruct (day <=? 10); [| destruct (day <=? 20)]; cbn [app];
      match goal with
      | |- context [draw_uniform ?lo ?hi r] =>
          specialize (Hstep lo hi); destruct (draw_uniform lo hi r); exact Hstep
      end.
Qed.

(** X7: for every snapshot and generator state the business-questions page
    completes with its four charts; it draws from the generator exactly 29
    times, nine times between 20 and 35, then nine times between 15 and 25,
    then eleven times between 10 and 20; the filler values of Chart A are
    those draws in that order and the generator is left where the last
    draw leaves it. *)
Theorem questions_page_draws (b : BusinessAnswers) (r : R) :
  snd (fst (render (show_business_questions b) r)) = inr tt
  /\ List.length (charts (rendered (show_business_questions b) r)) = 4%nat
  /\ List.length filler_calls = 29%nat
  /\ filler_values (rendered (show_business_questions b) r)
     = fst (draw_all filler_calls r)
  /\ snd (render (show_business_questions b) r) = snd (draw_all filler_calls r).
Proof.
  unfold rendered. rewrite render_questions. cbn [fst snd].
  rewrite filler_values_questions.
  destruct (series_draws (Py.range 1 32) r) as [Hv Hr].
  change (calls_of (Py.range 1 32)) with filler_calls in *.
  repeat split; try reflexivity; assumption.
Qed.

End Draws.

(** ** The height of the annotation of Chart A *)

(** On binary64 values: what is at most a positive number is not above a
    positive number of a larger exponent. *)
Lemma SF_at_most_not_above (x : spec_float) (mh mt : positive) (eh et : Z) :
  eh < et ->
  SFleb x (S754_finite false mh eh) = true ->
  SFltb (S754_finite false mt et) x = false.
Proof.
  intros He. unfold SFleb, SFltb, SFcompare.
  destruct x as [s | s | | s m e]; try destruct s; try reflexivity;
    try discriminate.
  destruct (Z.compare_spec e eh) as [-> | Hlt | Hgt]; try discriminate;
    intros _.
  - now rewrite (proj2 (Z.compare_gt_iff et eh)) by lia.
  - now rewrite (proj2 (Z.compare_gt_iff et e)) by lia.
Qed.

(** What lies between two positive numbers is below a positive number of
    a larger exponent. *)
Lemma SF_between_below (x : spec_float) (ml mh mt : positive) (el eh et : Z) :
  eh < et ->
  SFleb (S754_finite false ml el) x = true ->
  SFleb x (S754_finite false mh eh) = true ->
  SFltb x (S754_finite false mt et) = true.
Proof.
  intros He. unfold SFleb, SFltb, SFcompare.
  destruct x as [s | s | | s m e]; try destruct s; try reflexivity;
    try discriminate.
  intros _.
  destruct (Z.compare_spec e eh) as [-> | Hlt | Hgt]; try discriminate;
    intros _.
  - now rewrite (proj2 (Z.compare_lt_iff eh et)) by lia.
  - now rewrite (proj2 (Z.compare_lt_iff e et)) by lia.
Qed.

(** The binary64 values of the constants of the loop. *)
Lemma bound_specs :
  Prim2SF 20 = S754_finite false 5629499534213120 (-48)
  /\ Prim2SF 25 = S754_finite false 7036874417766400 (-48)
  /\ Prim2SF 35 = S754_finite false 4925812092436480 (-47)
  /\ Prim2SF 66.7 = S754_finite false 4693595236650189 (-46).
Proof. repeat split; vm_compute; reflexivity. Qed.

(** No rate that the loop can produce is above 66.7 when the generator
    keeps its bounds. *)
Lemma rate_not_above_top (day : Z) (v : float) :
  rate_ok day v -> PrimFloat.ltb 66.7 v = false.
Proof.
  destruct bound_specs as (S20 & S25 & S35 & Stop).
  unfold rate_ok, within_range.
  destruct (day =? 2); [intros ->; reflexivity |].
  destruct (day =? 16); [intros ->; reflexivity |].
  destruct (day <=? 10); [| destruct (day <=? 20)];
    intros Hv; apply andb_true_iff in Hv as [_ Hv];
    rewrite leb_spec in Hv; rewrite ltb_spec, Stop;
    rewrite ?S35, ?S25, ?S20 in Hv;
    (eapply SF_at_most_not_above; [| exact Hv]); lia.
Qed.

Lemma first_day_below_top (v : float) :
  rate_ok 1 v -> PrimFloat.ltb v 66.7 = true.
Proof.
  destruct bound_specs as (S20 & S25 & S35 & Stop).
  unfold rate_ok, within_range.
  change (1 =? 2) with false. change (1 =? 16) with false.
  change (1 <=? 10) with true. cbv iota.
  intros Hv. apply andb_true_iff in Hv as [Hlo Hhi].
  rewrite leb_spec in Hlo, Hhi. rewrite ltb_spec, Stop.
  rewrite S20 in Hlo. rewrite S35 in Hhi.
  (eapply SF_between_below; [| exact Hlo | exact Hhi]); lia.
Qed.

(** [max] keeps a running maximum that no later item exceeds. *)
Lemma fold_max_float_stays (vs : list float) (top : float) :
  Forall (fun v => PrimFloat.ltb top v = false) vs ->
  fold_left (fun m v => if PrimFloat.ltb m v then v else m) vs top = top.
Proof.
  induction 1 as [| v vs Hv _ IH]; cbn [fold_left]; [reflexivity |].
  now rewrite Hv.
Qed.

Lemma top_rate_of_series (rates : list float) :
  Forall2 rate_ok (Py.range 1 32) rates -> top_rate rates = 66.7%float.
Proof.
  change (Py.range 1 32) with (1 :: 2 :: Py.range 3 32).
  intros Hall.
  inversion Hall as [| d1 v1 ds1 rates1 Hv1 Hall1]; subst.
  inversion Hall1 as [| d2 v2 ds2 rates2 Hv2 Hall2]; subst.
  assert (v2 = 66.7%float) as -> by exact Hv2.
  unfold top_rate, Py.max_float. cbn [fold_left].
  rewrite (first_day_below_top Hv1).
  apply fold_max_float_stays.
  clear - Hall2. induction Hall2 as [| d v ds vs Hv _ IH]; constructor;
    [now apply rate_not_above_top with (day := d) | exact IH].
Qed.

(** X8: with a generator that keeps its bounds, the largest rate of Chart A
    is that of day 2, so the annotation always sits at 66.7 * 1.1 over
    day 5, whatever the filler values. *)
Theorem annotation_height_fixed
        {R : Type} `{RandomSource R} (b : BusinessAnswers) (r : R) :
  honours (R := R) 20 35 -> honours (R := R) 15 25 -> honours (R := R) 10 20 ->
  exists fig,
    nth_error (charts (rendered (show_business_questions b) r)) 0 = Some fig
    /\ map (fun a => (go.ann_x a, go.ann_y a)) (go.annotations fig)
       = [(5, (66.7 * 1.1)%float)].
Proof.
  intros H1 H2 H3.
  unfold rendered. rewrite render_questions. cbn [fst].
  rewrite (top_rate_of_series (series_ok (Py.range 1 32) H1 H2 H3 r)).
  eexists. split; reflexivity.
Qed.

Lemma annotation_height_fixed_witness :
  honours (R := Z) 20 35 /\ honours (R := Z) 15 25 /\ honours (R := Z) 10 20
  /\ exists fig,
      nth_error (charts (rendered (show_business_questions provider_answers) 0)) 0
      = Some fig
      /\ map (fun a => (go.ann_x a, go.ann_y a)) (go.annotations fig)
         = [(5, (66.7 * 1.1)%float)].
Proof.
  destruct cyclic_source_honours as (H1 & H2 & H3).
  split; [exact H1 | split; [exact H2 | split; [exact H3 |]]].
  exact (annotation_height_fixed provider_answers 0 H1 H2 H3).
Defined.

(** ** Pages on top of pages *)

Section Appending.

Context {R : Type} `{RandomSource R}.

Lemma appends_ret {A} (a : A) : appends_only (R := R) (st.ret a).
Proof.
  intros r c. exists (inr a), r, []. intros p. unfold st.ret.
  now rewrite app_nil_r.
Qed.

Lemma appends_lift {A} (res : Py.exn + A) : appends_only (R := R) (st.lift res).
Proof.
  intros r c. exists res, r, []. intros p. unfold st.lift.
  now rewrite app_nil_r.
Qed.

Lemma appends_emit (e : st.Element) : appends_only (R := R) (st.emit e).
Proof. intros r c. exists (inr tt), r, [(c, e)]. reflexivity. Qed.

Lemma appends_bind {A B} (m : st.St R A) (k : A -> st.St R B) :
  appends_only m -> (forall a, appends_only (k a)) -> appends_only (st.bind m k).
Proof.
  intros Hm Hk r c.
  destruct (Hm r c) as (res & r1 & els1 & Hrun1).
  destruct res as [err | a].
  - exists (inl err), r1, els1. intros p. unfold st.bind. now rewrite Hrun1.
  - destruct (Hk a r1 c) as (res2 & r2 & els2 & Hrun2).
    exists res2, r2, (els1 ++ els2)%list. intros p.
    unfold st.bind. rewrite Hrun1, Hrun2. now rewrite app_assoc.
Qed.

Lemma appends_within {A} (c' : st.Container) (body : st.St R A) :
  appends_only body -> appends_only (st.within c' body).
Proof.
  intros Hbody r c. destruct (Hbody r c') as (res & r1 & els & Hrun).
  exists res, r1, els. intros p. unfold st.within. cbn. now rewrite Hrun.
Qed.

Lemma appends_for {A S} (xs : list A) (body : A -> S -> st.St R S) :
  (forall x acc, appends_only (body x acc)) ->
  forall acc, appends_only (st.for_ xs body acc).
Proof.
  intros Hbody. induction xs as [| x rest IH]; intros acc; cbn [st.for_].
  - apply appends_ret.
  - apply appends_bind; [apply Hbody | exact IH].
Qed.

Lemma appends_uniform (low high : float) :
  appends_only (R := R) (np.random.uniform low high).
Proof.
  intros r c. exists (inr (fst (draw_uniform low high r))),
    (snd (draw_uniform low high r)), [].
  intros p. unfold np.random.uniform. cbn.
  destruct (draw_uniform low high r). cbn. now rewrite app_nil_r.
Qed.

End Appending.

Ltac appends :=
  repeat lazymatch goal with
         | |- appends_only (st.bind _ _) => apply appends_bind; [| intros]
         | |- appends_only (st.ret _) => apply appends_ret
         | |- appends_only (st.lift _) => apply appends_lift
         | |- appends_only (st.emit _) => apply appends_emit
         | |- appends_only (st.within _ _) => apply appends_within
         | |- appends_only (st.for_ _ _ _) => apply appends_for; intros
         | |- appends_only (np.random.uniform _ _) => apply appends_uniform
         | |- appends_only (if ?b then _ else _) => destruct b
         end.

Section AppendingPages.

Context {R : Type} `{RandomSource R}.

Lemma appends_summary (c : ContactsData) (e : EventsData) (b : BusinessAnswers) :
  appends_only (R := R) (show_executive_summary c e b).
Proof.
  unfold show_executive_summary, st.title, st.columns, st.metric, st.markdown,
    st.markdown_html.
  appends.
Qed.

Lemma appends_questions (b : BusinessAnswers) :
  appends_only (R := R) (show_business_questions b).
Proof.
  unfold show_business_questions, fill_attendance_rates, attendance_rate,
    st.title, st.columns, st.plotly_chart, st.markdown, st.markdown_html.
  appends.
Qed.

Lemma appends_segmentation (c : ContactsData) (e : EventsData) :
  appends_only (R := R) (show_segmentation_metrics c e).
Proof.
  unfold show_segmentation_metrics, st.title, st.columns, st.metric,
    st.plotly_chart, st.markdown.
  appends.
Qed.

Lemma appends_show_page (page : string) (snapshot : Snapshot) :
  appends_only (R := R) (show_page page snapshot).
Proof.
  destruct snapshot as [[c e] b]. unfold show_page.
  destruct (String.eqb page _); [apply appends_summary |].
  destruct (String.eqb page _); [apply appends_questions |].
  destruct (String.eqb page _); [apply appends_segmentation |].
  apply appends_ret.
Qed.


End AppendingPages.

Section Navigation.

Context {R : Type} `{RandomSource R}.

(** The selector always yields one of the three page labels. *)
Lemma selected_page_cases (selected : nat) :
  selected_page selected = "📊 Resumen Ejecutivo"
  \/ selected_page selected = "❓ Preguntas de Negocio"
  \/ selected_page selected = "👥 Segmentación & Métricas".
Proof.
  unfold selected_page.
  destruct selected as [| [| [| [| n]]]]; cbn; auto.
Qed.

(** [main] on any page: the header and the navigation, then the selected
    page as it renders on its own. *)
Lemma main_run (selected : nat) (r : R) :
  exists p res r',
    render (show_page (selected_page selected) load_real_ghl_data) r = (p, res, r')
    /\ forall q : Page,
        main selected {| st.np_random := r; st.current := st.Body; st.page := q |}
        = (res, {| st.np_random := r'; st.current := st.Body;
                   st.page := (q ++ navigation ++ p)%list |}).
Proof.
  destruct (appends_show_page (R := R) (selected_page selected)
              load_real_ghl_data r st.Body) as (res & r' & els & Hrun).
  exists els, res, r'. split.
  - unfold render, st.fresh. now rewrite (Hrun []).
  - intros q.
    unfold main, st.sidebar.title, st.sidebar.selectbox, st.markdown_html.
    cbn -[show_page load_real_ghl_data nth pages].
    fold (selected_page selected).
    rewrite (Hrun _). unfold navigation. now rewrite <- !app_assoc.
Qed.


(** On the provider's snapshot none of the three pages raises. *)
Lemma provider_pages_complete (selected : nat) (r : R) :
  snd (fst (render (show_page (selected_page selected) load_real_ghl_data) r))
  = inr tt.
Proof.
  destruct (selected_page_cases selected) as [-> | [-> | ->]].
  - change (show_page "📊 Resumen Ejecutivo" load_real_ghl_data)
      with (show_executive_summary (R := R) provider_contacts provider_events
              provider_answers).
    now rewrite render_summary.
  - change (show_page "❓ Preguntas de Negocio" load_real_ghl_data)
      with (show_business_questions (R := R) provider_answers).
    now rewrite render_questions.
  - reflexivity.
Qed.

(** X11: whatever position is selected and whatever the state of the
    generator, the script runs to its end without an exception: the page
    is the navigation, the selected page and the footer. *)
Theorem script_completes_with_footer (selected : nat) (r : R) :
  exists p r',
    render (show_page (selected_page selected) load_real_ghl_data) r
    = (p, inr tt, r')
    /\ render (script selected) r = ((navigation ++ p ++ footer)%list, inr tt, r').
Proof.
  destruct (main_run selected r) as (p & res & r' & Hpage & Hmain).
  pose proof (provider_pages_complete selected r) as Hok.
  rewrite Hpage in Hok. cbn in Hok. subst res.
  exists p, r'. split; [exact Hpage |].
  unfold render, script, st.bind, st.fresh. rewrite (Hmain []).
  unfold st.markdown, st.emit. cbn.
  now rewrite <- !app_assoc.
Qed.

End Navigation.
